(** * webpack.config.js: the build configuration resolver and its clean-build step

    A shallow embedding of [webpack.config.js]: the module's top-level
    evaluation (revision lookup, mode selection, the browser configuration,
    the node-target configuration, the exported value) and the [cleanBuild]
    plugin that empties an output directory before a compilation, keeping
    [manifest.json].

    Conventions.
    - A JavaScript string is a [string]; each character stands for one code
      unit below 256.  [null] and [undefined] results that the module can
      produce are [None] of an [option].
    - Node's [path] and [fs] modules are modelled for POSIX paths.
    - The [resolve], [module], [optimization.minimizer],
      [optimization.splitChunks] and [node] fields of the configuration
      object are left out of the [Config] record; [nodeCfg] inherits them
      unchanged from [baseConfig] (apart from [node], which only it has). *)

From Stdlib Require Import Ascii String.
From stdpp Require Import base strings pretty list gmap.

(** ** Strings *)

Module Str.

(** [s.startsWith(p)] *)
Fixpoint startsWith (p s : string) : bool :=
  match p, s with
  | EmptyString, _ => true
  | String a p', String b s' => if decide (a = b) then startsWith p' s' else false
  | String _ _, EmptyString => false
  end.

(** [s.includes(p)] *)
Fixpoint includes (p s : string) : bool :=
  startsWith p s ||
  match s with
  | EmptyString => false
  | String _ s' => includes p s'
  end.

(** WhiteSpace and LineTerminator code units below 256 (ECMAScript
    [String.prototype.trim]): TAB, LF, VT, FF, CR, SP and NBSP. *)
Definition isWhiteSpace (c : ascii) : bool :=
  let n := nat_of_ascii c in
  ((9 <=? n)%nat && (n <=? 13)%nat) || (n =? 32)%nat || (n =? 160)%nat.

Fixpoint trimStart (s : string) : string :=
  match s with
  | EmptyString => EmptyString
  | String c r => if isWhiteSpace c then trimStart r else s
  end.

Fixpoint trimEnd (s : string) : string :=
  match s with
  | EmptyString => EmptyString
  | String c r =>
      match trimEnd r with
      | EmptyString => if isWhiteSpace c then EmptyString else String c EmptyString
      | r' => String c r'
      end
  end.

(** [s.trim()] *)
Definition trim (s : string) : string := trimEnd (trimStart s).

Fixpoint allWhiteSpace (s : string) : bool :=
  match s with
  | EmptyString => true
  | String c r => isWhiteSpace c && allWhiteSpace r
  end.

Definition first (s : string) : option ascii :=
  match s with
  | EmptyString => None
  | String c _ => Some c
  end.

Fixpoint last (s : string) : option ascii :=
  match s with
  | EmptyString => None
  | String c EmptyString => Some c
  | String _ r => last r
  end.

End Str.

(** ** Node's [path] module (POSIX) *)

Module Path.

Definition slash : ascii := "/"%char.

(** The pieces of a path between its ['/'] separators. *)
Fixpoint split (s : string) : list string :=
  match s with
  | EmptyString => [EmptyString]
  | String c r =>
      if decide (c = slash) then EmptyString :: split r
      else match split r with
           | h :: t => String c h :: t
           | [] => [String c EmptyString]
           end
  end.

(** One step of [normalizeString] with [allowAboveRoot = false]: the
    stack of directory names seen so far, innermost first. *)
Definition normStep (stack : list string) (seg : string) : list string :=
  if decide (seg = EmptyString) then stack
  else if decide (seg = ".") then stack
  else if decide (seg = "..") then tail stack
  else seg :: stack.

Definition normalize (segs : list string) : list string :=
  rev (fold_left normStep segs []).

Definition isAbsolute (p : string) : bool := Str.startsWith "/" p.

(** The loop of [path.resolve], over the arguments from the last to the
    first: empty arguments are skipped, each argument is put in front of
    what was resolved so far, and the loop stops at an absolute one. *)
Fixpoint resolveLoop (rargs : list string) (resolved : string) : string * bool :=
  match rargs with
  | [] => (resolved, false)
  | p :: rest =>
      if decide (p = EmptyString) then resolveLoop rest resolved
      else
        let resolved' := p +:+ "/" +:+ resolved in
        if isAbsolute p then (resolved', true) else resolveLoop rest resolved'
  end.

(** The directory names of [path.resolve(...args)], outermost first;
    [cwd] is [process.cwd()], used when no argument is absolute. *)
Definition resolveSegs (cwd : string) (args : list string) : list string :=
  let '(resolved, absolute) := resolveLoop (rev args) EmptyString in
  normalize (split (if absolute then resolved else cwd +:+ "/" +:+ resolved)).

Fixpoint joinSegs (segs : list string) : string :=
  match segs with
  | [] => EmptyString
  | [s] => s
  | s :: rest => s +:+ "/" +:+ joinSegs rest
  end.

Definition render (segs : list string) : string := "/" +:+ joinSegs segs.

(** [path.resolve(...args)] *)
Definition resolve (cwd : string) (args : list string) : string :=
  render (resolveSegs cwd args).

(** A legal directory entry name: not empty, neither [.] nor [..], and
    without a separator. *)
Definition validName (n : string) : bool :=
  bool_decide (n ≠ EmptyString) && bool_decide (n ≠ ".") &&
  bool_decide (n ≠ "..") && negb (Str.includes "/" n).

End Path.

(** ** Completions: a statement returns normally or throws *)

Inductive Error : Type :=
  | ENOENT (path : string)    (* no such file or directory *)
  | ENOTDIR (path : string)   (* not a directory *)
  | EISDIR (path : string)    (* unlink of a directory *)
  | ExecError.                (* child process failed or could not be spawned *)

Inductive Completion (A : Type) : Type :=
  | Normal (a : A)
  | Throw (e : Error).
Arguments Normal {A} a.
Arguments Throw {A} e.

(** [try { body } catch (e) { handler(e) }] *)
Definition tryCatch {A} (body : Completion A) (handler : Error → Completion A) : Completion A :=
  match body with
  | Normal a => Normal a
  | Throw e => handler e
  end.

(** ** Node's [fs] module *)

(** What is stored at a path: a plain file or a directory.  There are no
    permissions and nothing changes the file system from outside, so the
    calls below fail only for a missing entry or an entry of the wrong
    kind. *)
Inductive Node : Type := File | Dir.

#[global] Instance Node_eq_dec : EqDecision Node.
Proof. solve_decision. Defined.

(** The file system maps the directory names of an absolute path, from
    the root down, to what is stored there.  Only keys made of legal entry
    names can be reached through a path. *)
Abbreviation FS := (gmap (list string) Node).

(** Synchronous file-system code: it reads and updates the file system and
    may throw; what was done before the throw stays done. *)
Definition M (A : Type) : Type := FS → FS * Completion A.

Definition ret {A} (a : A) : M A := λ fs, (fs, Normal a).

Definition bind {A B} (m : M A) (k : A → M B) : M B :=
  λ fs, match m fs with
        | (fs', Normal a) => k a fs'
        | (fs', Throw e) => (fs', Throw e)
        end.

Notation "'let!' x ':=' m 'in' k" := (bind m (λ x, k))
  (at level 10, x name, m at level 100, k at level 200, only parsing).
Notation "'do!' m 'in' k" := (bind m (λ _, k))
  (at level 10, m at level 100, k at level 200, only parsing).

(** [for (const x of xs) body(x)] *)
Fixpoint forOf {A} (xs : list A) (body : A → M unit) : M unit :=
  match xs with
  | [] => ret tt
  | x :: rest => do! body x in forOf rest body
  end.

Module Fs.

Section WithCwd.
Variable cwd : string.

Definition key (p : string) : list string := Path.resolveSegs cwd [p].

(** What is left of [k'] below [k], when [k'] lies below [k]. *)
Fixpoint below (k k' : list string) : option (list string) :=
  match k, k' with
  | [], rest => Some rest
  | a :: k1, b :: k1' => if decide (a = b) then below k1 k1' else None
  | _ :: _, [] => None
  end.

(** [k'] names an entry of the directory [k]: that entry's name.  Keys
    that do not extend [k] by one legal name are not entries of [k]. *)
Definition childName (k k' : list string) : option string :=
  match below k k' with
  | Some [n] => if Path.validName n then Some n else None
  | _ => None
  end.

(** The names of the entries of the directory [k], in the order the file
    system enumerates them. *)
Definition children (fs : FS) (k : list string) : list string :=
  omap (childName k) (map_to_list fs).*1.

(** [existsSync(p)] *)
Definition existsSync (p : string) : M bool :=
  λ fs, (fs, Normal (bool_decide (is_Some (fs !! key p)))).

(** [readdirSync(p)] *)
Definition readdirSync (p : string) : M (list string) :=
  λ fs, match fs !! key p with
        | Some Dir => (fs, Normal (children fs (key p)))
        | Some File => (fs, Throw (ENOTDIR p))
        | None => (fs, Throw (ENOENT p))
        end.

(** [unlinkSync(p)] *)
Definition unlinkSync (p : string) : M unit :=
  λ fs, match fs !! key p with
        | Some File => (delete (key p) fs, Normal tt)
        | Some Dir => (fs, Throw (EISDIR p))
        | None => (fs, Throw (ENOENT p))
        end.

End WithCwd.

End Fs.

(** ** [JSON.stringify] on the values the module passes to it *)

Module JSON.

Definition dquote : ascii := ascii_of_nat 34.
Definition backslash : ascii := ascii_of_nat 92.

Definition hexDigit (n : nat) : ascii :=
  ascii_of_nat (if (n <? 10)%nat then 48 + n else 87 + n).

(** One code unit of a string, as [QuoteJSONString] writes it. *)
Definition quoteChar (c : ascii) : string :=
  let n := nat_of_ascii c in
  if decide (c = dquote) then String backslash (String dquote EmptyString)
  else if decide (c = backslash) then String backslash (String backslash EmptyString)
  else if (n =? 8)%nat then "\b"
  else if (n =? 9)%nat then "\t"
  else if (n =? 10)%nat then "\n"
  else if (n =? 12)%nat then "\f"
  else if (n =? 13)%nat then "\r"
  else if (n <? 32)%nat
       then "\u00" +:+ String (hexDigit (n / 16)) (String (hexDigit (n mod 16)) EmptyString)
  else String c EmptyString.

Fixpoint quoteChars (s : string) : string :=
  match s with
  | EmptyString => EmptyString
  | String c r => quoteChar c +:+ quoteChars r
  end.

Definition quote (s : string) : string :=
  String dquote (quoteChars s +:+ String dquote EmptyString).

(** [JSON.stringify(v)] for [v] a string or [null]. *)
Definition stringifyNullable (v : option string) : string :=
  match v with
  | Some s => quote s
  | None => "null"
  end.

(** [JSON.stringify(v)] for [v] a string or [undefined]; the result of
    the latter is [undefined]. *)
Definition stringifyOptional (v : option string) : option string :=
  quote <$> v.

End JSON.

(** ** The configuration object *)

Record Output : Type := {
  filename : string;
  chunkFilename : string;
  libraryTarget : option string;
  path : string;
  publicPath : string
}.

Inductive Plugin : Type :=
  | ManifestPlugin (writeToFileEmit : bool) (fileName : string)
  | MiniCSSExtractPlugin (css_filename css_chunkFilename : string)
  | DefinePlugin (GIT_REVISION : string) (process_env_NODE_ENV : option string)
  | FriendlyErrorsWebpackPlugin
  | PreactRefreshWebpackPlugin
  | cleanBuildPlugin              (* the object literal of lines 210-221 *)
  | LimitChunkCountPlugin (maxChunks : nat).

#[global] Instance Plugin_eq_dec : EqDecision Plugin.
Proof. solve_decision. Defined.

Record Optimization : Type := { minimize : bool }.

Record DevServer : Type := {
  quiet : bool;
  historyApiFallback : bool;
  allowedHosts : list string;
  proxy : list (string * string)
}.

Inductive External : Type :=
  | webpack_node_externals.      (* [require('webpack-node-externals')()] *)

Record Config : Type := {
  mode : string;
  entry : string;
  output : Output;
  plugins : list Plugin;
  optimization : Optimization;
  devServer : DevServer;
  target : option string;
  externals : list External
}.

(** [module.exports]: one configuration object, or an array of them. *)
Inductive Exports : Type :=
  | Single (c : Config)
  | Multi (cs : list Config).

(** ** The process the module is loaded in *)

Record Process : Type := {
  NODE_ENV : option string;            (* [process.env.NODE_ENV] *)
  PORT : option string;                (* [process.env.PORT] *)
  cwd : string;                        (* [process.cwd()] *)
  dirname : string;                    (* [__dirname] *)
  git_rev_parse_HEAD : Completion string
    (* [execSync('git rev-parse HEAD').toString()] *)
}.

(** [a || b] for [a] a string or [undefined]: the empty string is falsy. *)
Definition orElse (a : option string) (b : string) : string :=
  match a with
  | Some s => if decide (s = EmptyString) then b else s
  | None => b
  end.

Section Module.
Variable p : Process.

(** Lines 40-41. *)
Definition evalCommitHash : Completion (option string) :=
  let commitHash : option string := None in
  tryCatch
    (match git_rev_parse_HEAD p with
     | Normal out => Normal (Some (Str.trim out))
     | Throw e => Throw e
     end)
    (λ e, Normal commitHash).

(** Line 43. *)
Definition isDev : bool := bool_decide (NODE_ENV p = Some "development").

(** Line 44. *)
Definition src : string := Path.resolve (cwd p) [dirname p; "src"].

(** Lines 46-204. *)
Definition baseConfig (commitHash : option string) : Config := {|
  mode := if isDev then "development" else "production";
  entry := Path.resolve (cwd p) [src; "main.jsx"];
  output := {|
    filename := if isDev then "[name].js" else "[contenthash].js";
    chunkFilename := if isDev then "[name].chk.js" else "[contenthash].js";
    libraryTarget := None;
    path := Path.resolve (cwd p) [dirname p; "dist"];
    publicPath := "/dist/"
  |};
  plugins := [
    ManifestPlugin true
      (Path.resolve (cwd p) [dirname p; "http"; "dist"; "manifest.json"]);
    MiniCSSExtractPlugin
      (if isDev then "[name].css" else "[contenthash].css")
      (if isDev then "[name].css" else "[contenthash].css");
    DefinePlugin (JSON.stringifyNullable commitHash)
      (JSON.stringifyOptional (NODE_ENV p))
  ];
  optimization := {| minimize := negb isDev |};
  devServer := {|
    quiet := true;
    historyApiFallback := true;
    allowedHosts := ["localhost"; ".ngrok.io"];
    proxy := [("/", "http://localhost:" +:+ orElse (PORT p) (pretty 6969%N))]
  |};
  target := None;
  externals := []
|}.

(** [c.plugins.push(...ps)] *)
Definition pushPlugins (c : Config) (ps : list Plugin) : Config := {|
  mode := mode c; entry := entry c; output := output c;
  plugins := plugins c ++ ps;
  optimization := optimization c; devServer := devServer c;
  target := target c; externals := externals c
|}.

(** Lines 223-247; [b] is [baseConfig] after the push of line 210. *)
Definition nodeCfg (b : Config) : Config := {|
  mode := mode b;
  entry := Path.resolve (cwd p) [src; "components"; "App.jsx"];
  output := {|
    filename := "App.js";
    chunkFilename := "[name].chk.js";
    libraryTarget := Some "commonjs2";
    path := Path.resolve (cwd p) [dirname p; "http"; "dist"];
    publicPath := "/dist/"
  |};
  plugins := drop 1 (plugins b) ++ [LimitChunkCountPlugin 1];
  optimization := {| minimize := false |};
  devServer := devServer b;
  target := Some "node";
  externals := [webpack_node_externals]
|}.

(** The whole module: the value of [module.exports] when it has been
    evaluated. *)
Definition module_exports : Completion Exports :=
  match evalCommitHash with
  | Throw e => Throw e
  | Normal commitHash =>
      let baseConfig := baseConfig commitHash in
      if isDev then
        let baseConfig :=
          pushPlugins baseConfig [FriendlyErrorsWebpackPlugin; PreactRefreshWebpackPlugin] in
        Normal (Single baseConfig)
      else
        let baseConfig := pushPlugins baseConfig [cleanBuildPlugin] in
        let nodeCfg := nodeCfg baseConfig in
        Normal (Multi [baseConfig; nodeCfg])
  end.

End Module.

(** ** The [cleanBuild] tap (lines 212-220) *)

Definition cleanBuild (cwd : string) (options : Config) : M unit :=
  let! exists_ := Fs.existsSync cwd (path (output options)) in
  if (exists_ : bool) then
    let! names := Fs.readdirSync cwd (path (output options)) in
    forOf names (λ filename,
      if decide (filename ≠ "manifest.json")
      then Fs.unlinkSync cwd (Path.resolve cwd [path (output options); filename])
      else ret tt)
  else ret tt.

(** The body of the loop, lines 215-217, on its own. *)
Definition cleanStep (cwd : string) (options : Config) (filename : string) : M unit :=
  if decide (filename ≠ "manifest.json")
  then Fs.unlinkSync cwd (Path.resolve cwd [path (output options); filename])
  else ret tt.

(** ** The bundler's side: compilers, hooks and a build

    What webpack does with the exported value, as far as the module relies
    on it: one compiler per exported configuration; every plugin of a
    configuration is applied to its compiler once; a run of a compiler
    calls its hooks in a fixed order and writes the assets to
    [output.path] between the [emit] and the [afterEmit] hook.  The taps of
    the third-party plugins are not modelled. *)

Inductive Hook : Type := beforeRun | run | compile | make | emit | afterEmit | done.

#[global] Instance Hook_eq_dec : EqDecision Hook.
Proof. solve_decision. Defined.

Record Tap : Type := { tapHook : Hook; tapName : string; tapFn : M unit }.

(** [plugin.apply(compiler)]: the taps the plugin registers.  Lines 211-220
    for the [cleanBuild] plugin. *)
Definition apply (cwd : string) (pl : Plugin) (options : Config) : list Tap :=
  match pl with
  | cleanBuildPlugin =>
      [ {| tapHook := compile; tapName := "cleanBuild"; tapFn := cleanBuild cwd options |} ]
  | _ => []
  end.

Record Compiler : Type := { options : Config; taps : list Tap }.

Definition createCompiler (cwd : string) (options : Config) : Compiler :=
  {| options := options;
     taps := flat_map (λ pl, apply cwd pl options) (plugins options) |}.

Definition tapsOn (h : Hook) (c : Compiler) : list Tap :=
  filter (λ t, tapHook t = h) (taps c).

(** [compiler.hooks.h.call()] *)
Definition callHook (h : Hook) (c : Compiler) : M unit :=
  forOf (tapsOn h c) tapFn.

Inductive Step : Type := CallHook (h : Hook) | WriteAssets.

Definition lifecycle : list Step :=
  [ CallHook beforeRun; CallHook run; CallHook compile; CallHook make;
    CallHook emit; WriteAssets; CallHook afterEmit; CallHook done ].

Inductive Event : Type :=
  | Called (h : Hook) (name : string)
  | AssetsWritten (dir : string).

#[global] Instance Event_eq_dec : EqDecision Event.
Proof. solve_decision. Defined.

(** What one run of a compiler does, in order. *)
Definition runTrace (c : Compiler) : list Event :=
  flat_map (λ st,
    match st with
    | CallHook h => map (λ t, Called h (tapName t)) (tapsOn h c)
    | WriteAssets => [AssetsWritten (path (output (options c)))]
    end) lifecycle.

Definition configs (e : Exports) : list Config :=
  match e with
  | Single c => [c]
  | Multi cs => cs
  end.

(** [webpack(module.exports)] *)
Definition compilers (cwd : string) (e : Exports) : list Compiler :=
  map (createCompiler cwd) (configs e).

(** One build invocation: the module is loaded and every compiler runs
    once; the trace of each compiler, in the order of the exported
    configurations. *)
Definition build (p : Process) : list (list Event) :=
  match module_exports p with
  | Normal e => map runTrace (compilers (cwd p) e)
  | Throw _ => []
  end.

Definition isCleanup (ev : Event) : bool := bool_decide (ev = Called compile "cleanBuild").

Definition cleanupRuns (t : list Event) : nat := length (filter (λ ev, isCleanup ev = true) t).

(** The number of times the clean-build tap is called in a build. *)
Definition cleanupRunsOfBuild (traces : list (list Event)) : nat :=
  sum_list (cleanupRuns <$> traces).

(** ** A run of a compiler on the file system

    The same lifecycle, executed.  When a hook is called, the taps of the
    plugins run in the order of [options.plugins]; then the bundler does
    its own work of that step.  [third pl h] stands for whatever the taps
    of the third-party plugin [pl] do on hook [h] (the manifest plugin
    writes its file on [emit]), and [core st] for the bundler's own work at
    step [st], the writing of the assets at [WriteAssets] included; both
    are left arbitrary.  A throw ends the run. *)

Definition pluginTaps (cwd : string) (third : Plugin → Hook → M unit)
    (c : Config) (h : Hook) (pl : Plugin) : M unit :=
  match pl with
  | cleanBuildPlugin => forOf (filter (λ t, tapHook t = h) (apply cwd pl c)) tapFn
  | _ => third pl h
  end.

Definition runStep (cwd : string) (third : Plugin → Hook → M unit) (core : Step → M unit)
    (c : Config) (st : Step) : M unit :=
  match st with
  | CallHook h => do! forOf (plugins c) (pluginTaps cwd third c h) in core st
  | WriteAssets => core st
  end.

Definition runCompiler (cwd : string) (third : Plugin → Hook → M unit)
    (core : Step → M unit) (c : Config) : M unit :=
  forOf lifecycle (runStep cwd third core c).

(** A step in which the clean-build plugin has no part. *)
Definition otherStep (third : Plugin → Hook → M unit) (core : Step → M unit)
    (c : Config) (st : Step) : M unit :=
  match st with
  | CallHook h =>
      do! forOf (filter (λ pl, pl ≠ cleanBuildPlugin) (plugins c)) (λ pl, third pl h)
      in core st
  | WriteAssets => core st
  end.

Definition stepsBeforeCompile : list Step := [ CallHook beforeRun; CallHook run ].

Definition stepsAfterCompile : list Step :=
  [ CallHook make; CallHook emit; WriteAssets; CallHook afterEmit; CallHook done ].

(** ** Reading the descriptors off the exported value *)

(** The browser configuration is exported first, or alone. *)
Definition browserConfig (p : Process) : option Config :=
  match module_exports p with
  | Normal e => head (configs e)
  | Throw _ => None
  end.

(** A server descriptor is a configuration with the node target. *)
Definition isServer (c : Config) : bool := bool_decide (target c = Some "node").

Definition serverConfigs (p : Process) : list Config :=
  match module_exports p with
  | Normal e => filter (λ c, isServer c = true) (configs e)
  | Throw _ => []
  end.

Definition cssPatterns (pl : Plugin) : list string :=
  match pl with
  | MiniCSSExtractPlugin f c => [f; c]
  | _ => []
  end.

(** The filename patterns of the emitted scripts and styles. *)
Definition filenamePatterns (c : Config) : list string :=
  [filename (output c); chunkFilename (output c)] ++ flat_map cssPatterns (plugins c).

Definition chunkCaps (c : Config) : list nat :=
  flat_map (λ pl, match pl with LimitChunkCountPlugin n => [n] | _ => [] end) (plugins c).

Definition manifestFiles (c : Config) : list (bool * string) :=
  flat_map (λ pl, match pl with ManifestPlugin w f => [(w, f)] | _ => [] end) (plugins c).

Definition gitRevisions (c : Config) : list string :=
  flat_map (λ pl, match pl with DefinePlugin g _ => [g] | _ => [] end) (plugins c).

(** ** [path.join] and [path.normalize] (POSIX) *)

Module PathJoin.

Definition endsWithSlash (s : string) : bool :=
  match Str.last s with
  | Some c => bool_decide (c = Path.slash)
  | None => false
  end.

(** One step of [normalizeString] with [allowAboveRoot = true]: a [..]
    that has nothing to cancel is kept. *)
Definition normStepAbove (stack : list string) (seg : string) : list string :=
  if decide (seg = EmptyString) then stack
  else if decide (seg = ".") then stack
  else if decide (seg = "..") then
    match stack with
    | [] => [".."]
    | top :: rest => if decide (top = "..") then ".." :: stack else rest
    end
  else seg :: stack.

Definition normalizeString (path : string) (allowAboveRoot : bool) : string :=
  Path.joinSegs
    (rev (fold_left (if allowAboveRoot then normStepAbove else Path.normStep)
            (Path.split path) [])).

(** [path.normalize(path)] *)
Definition normalize (path : string) : string :=
  if decide (path = EmptyString) then "."
  else
    let isAbsolute := Path.isAbsolute path in
    let trailingSeparator := endsWithSlash path in
    let res := normalizeString path (negb isAbsolute) in
    if decide (res = EmptyString) then
      if isAbsolute then "/" else if trailingSeparator then "./" else "."
    else
      let res := if trailingSeparator then res +:+ "/" else res in
      if isAbsolute then "/" +:+ res else res.

(** The loop of [path.join]: the non-empty arguments, with a separator
    between them. *)
Fixpoint joinLoop (args : list string) (joined : option string) : option string :=
  match args with
  | [] => joined
  | arg :: rest =>
      if decide (arg = EmptyString) then joinLoop rest joined
      else joinLoop rest
             (Some (match joined with
                    | None => arg
                    | Some j => j +:+ "/" +:+ arg
                    end))
  end.

(** [path.join(...args)] *)
Definition join (args : list string) : string :=
  match joinLoop args None with
  | None => "."
  | Some joined => normalize joined
  end.

End PathJoin.

(** ** Parts of the module outside the [Config] record *)

(** Line 37. *)
Definition SRC (p : Process) : string := PathJoin.join [dirname p; "src"].

(** [resolve.alias], lines 57-62. *)
Definition alias (p : Process) : list (string * string) :=
  [ ("@components", Path.resolve (cwd p) [dirname p; "src"; "components"]);
    ("@styles", Path.resolve (cwd p) [dirname p; "src"; "styles"]);
    ("@assets", Path.resolve (cwd p) [dirname p; "src"; "assets"]);
    ("@constants", PathJoin.join [SRC p; "constants.js"]) ].

(** [xs.filter(Boolean)] for an array of strings and [null]s: [null] and
    the empty string are falsy. *)
Definition filterBoolean (xs : list (option string)) : list string :=
  omap (λ x, match x with
             | Some s => if decide (s = EmptyString) then None else Some s
             | None => None
             end) xs.

(** The plugin list of the babel loader, lines 78-83. *)
Definition babelPlugins (p : Process) : list string :=
  filterBoolean
    [ Some "@babel/plugin-syntax-dynamic-import";
      Some "@babel/plugin-proposal-object-rest-spread";
      Some "@babel/plugin-proposal-class-properties";
      if isDev p then Some "@prefresh/babel-plugin" else None ].

(** The value defined for [process.env.NODE_ENV], line 165. *)
Definition definedNodeEnv (c : Config) : list (option string) :=
  flat_map (λ pl, match pl with DefinePlugin _ e => [e] | _ => [] end) (plugins c).

(** The paths of a configuration: entry point, output directory and
    manifest file. *)
Definition configPaths (c : Config) : string * string * list (bool * string) :=
  (entry c, path (output c), manifestFiles c).

(** Whether a pass of [cleanBuild] that returns normally removes the entry
    stored at [k']: it is a direct entry of the output directory, it
    exists, and its name is not [manifest.json]. *)
Definition removes (cwd : string) (options : Config) (fs : FS) (k' : list string) : bool :=
  match fs !! Fs.key cwd (path (output options)) with
  | Some Dir =>
      match Fs.childName (Fs.key cwd (path (output options))) k' with
      | Some n => bool_decide (n ≠ "manifest.json") && bool_decide (is_Some (fs !! k'))
      | None => false
      end
  | _ => false
  end.

(** ** Sample processes and file systems *)

Definition newline : string := String (ascii_of_nat 10) EmptyString.

Definition devProcess : Process := {|
  NODE_ENV := Some "development";
  PORT := Some "8080";
  cwd := "/home/dev";
  dirname := "/app";
  git_rev_parse_HEAD := Normal ("4f2a9c1e" +:+ newline)
|}.

(** No [NODE_ENV], no [PORT], and no usable [git]. *)
Definition prodProcess : Process := {|
  NODE_ENV := None;
  PORT := None;
  cwd := "/home/ci";
  dirname := "/app";
  git_rev_parse_HEAD := Throw ExecError
|}.

(** [PORT] is set, to the empty string. *)
Definition emptyPortProcess : Process := {|
  NODE_ENV := Some "development";
  PORT := Some EmptyString;
  cwd := "/home/dev";
  dirname := "/app";
  git_rev_parse_HEAD := Normal ("4f2a9c1e" +:+ newline)
|}.

(** [/app/dist] holds [manifest.json], [old.js] and [old.css]. *)
Definition staleDist : FS :=
  list_to_map [ (["app"], Dir);
                (["app"; "src"], Dir);
                (["app"; "src"; "main.jsx"], File);
                (["app"; "dist"], Dir);
                (["app"; "dist"; "manifest.json"], File);
                (["app"; "dist"; "old.js"], File);
                (["app"; "dist"; "old.css"], File) ].

(** There is no [/app/dist] and no [/app/http/dist]. *)
Definition freshCheckout : FS :=
  list_to_map [ (["app"], Dir);
                (["app"; "src"], Dir);
                (["app"; "src"; "main.jsx"], File) ].

(** [git] prints nothing but white space. *)
Definition blankGitProcess : Process := {|
  NODE_ENV := Some "production";
  PORT := None;
  cwd := "/home/ci";
  dirname := "/app";
  git_rev_parse_HEAD := Normal (" " +:+ newline)
|}.

(** [/app/dist] holds a subdirectory next to its files. *)
Definition distWithImages : FS :=
  list_to_map [ (["app"], Dir);
                (["app"; "dist"], Dir);
                (["app"; "dist"; "manifest.json"], File);
                (["app"; "dist"; "main.js"], File);
                (["app"; "dist"; "img"], Dir);
                (["app"; "dist"; "img"; "logo.png"], File) ].

(** The two configurations [prodProcess] exports. *)
Definition prodBrowserConfig : Config :=
  pushPlugins (baseConfig prodProcess None) [cleanBuildPlugin].

Definition prodServerConfig : Config := nodeCfg prodProcess prodBrowserConfig.

(** Both output directories exist and hold stale files. *)
Definition twoStaleDists : FS :=
  list_to_map [ (["app"], Dir);
                (["app"; "dist"], Dir);
                (["app"; "dist"; "old.js"], File);
                (["app"; "dist"; "old.css"], File);
                (["app"; "http"], Dir);
                (["app"; "http"; "dist"], Dir);
                (["app"; "http"; "dist"; "manifest.json"], File);
                (["app"; "http"; "dist"; "App.js"], File) ].

(** [prodProcess], started from another working directory, inside a
    repository and with a port. *)
Definition prodProcessElsewhere : Process := {|
  NODE_ENV := None;
  PORT := Some "3000";
  cwd := "/tmp/build";
  dirname := "/app";
  git_rev_parse_HEAD := Normal ("4f2a9c1e" +:+ newline)
|}.

(** * Properties *)

(** ** The model on concrete inputs *)

Example resolve_under_dirname :
  Path.resolve "/home/ci" ["/app"; "http"; "dist"; "manifest.json"]
  = "/app/http/dist/manifest.json".
Proof. reflexivity. Qed.

Example resolve_relative_and_dots :
  Path.resolve "/home/ci" ["app/"; "../x//y"; "."] = "/home/ci/x/y".
Proof. reflexivity. Qed.

Example resolve_restarts_at_absolute :
  Path.resolve "/home/ci" ["/a"; "/b"; "c"] = "/b/c".
Proof. reflexivity. Qed.

Example resolve_root : Path.resolve "/home/ci" ["/"] = "/".
Proof. reflexivity. Qed.

Example trim_git_output : Str.trim ("  4f2a9c1e" +:+ newline) = "4f2a9c1e".
Proof. reflexivity. Qed.

Example stringify_null : JSON.stringifyNullable None = "null".
Proof. reflexivity. Qed.

Example stringify_revision :
  JSON.stringifyNullable (Some "4f2a9c1e")
  = String JSON.dquote ("4f2a9c1e" +:+ String JSON.dquote EmptyString).
Proof. reflexivity. Qed.

Example stringify_newline : JSON.quoteChars newline = "\n".
Proof. reflexivity. Qed.

Example dev_plugins :
  plugins <$> browserConfig devProcess =
  Some [ ManifestPlugin true "/app/http/dist/manifest.json";
         MiniCSSExtractPlugin "[name].css" "[name].css";
         DefinePlugin (JSON.quote "4f2a9c1e") (Some (JSON.quote "development"));
         FriendlyErrorsWebpackPlugin; PreactRefreshWebpackPlugin ].
Proof. reflexivity. Qed.

Example prod_node_plugins :
  plugins <$> serverConfigs prodProcess =
  [ [ MiniCSSExtractPlugin "[contenthash].css" "[contenthash].css";
      DefinePlugin "null" None;
      cleanBuildPlugin;
      LimitChunkCountPlugin 1 ] ].
Proof. reflexivity. Qed.

Example prod_build_trace :
  build prodProcess =
  [ [Called compile "cleanBuild"; AssetsWritten "/app/dist"];
    [Called compile "cleanBuild"; AssetsWritten "/app/http/dist"] ].
Proof. reflexivity. Qed.

Example dev_build_trace : build devProcess = [ [AssetsWritten "/app/dist"] ].
Proof. reflexivity. Qed.

Example clean_stale_dist :
  (cleanBuild "/home/ci" (pushPlugins (baseConfig prodProcess None) [cleanBuildPlugin])
     staleDist).1
  = list_to_map
      [ (["app"], Dir); (["app"; "src"], Dir); (["app"; "src"; "main.jsx"], File);
        (["app"; "dist"], Dir); (["app"; "dist"; "manifest.json"], File) ].
Proof. vm_compute. reflexivity. Qed.

(** A subdirectory of the output directory makes [unlinkSync] throw. *)
Example clean_with_subdirectory :
  (cleanBuild "/home/ci" (pushPlugins (baseConfig prodProcess None) [cleanBuildPlugin])
     (<[ ["app"; "dist"; "img"] := Dir ]> (<[ ["app"; "dist"] := Dir ]> freshCheckout))).2
  = Throw (EISDIR "/app/dist/img").
Proof. vm_compute. reflexivity. Qed.

(** ** Strings and paths *)

Section StringFacts.

Lemma str_app_nil_l (b : string) : EmptyString +:+ b = b.
Proof. reflexivity. Qed.

Lemma str_app_cons x (a b : string) : String x a +:+ b = String x (a +:+ b).
Proof. reflexivity. Qed.

Lemma str_app_assoc (a b c : string) : (a +:+ b) +:+ c = a +:+ b +:+ c.
Proof.
  induction a as [|x a IH]; [done |]. by rewrite !str_app_cons, IH.
Qed.

Lemma str_app_nil_r (a : string) : a +:+ EmptyString = a.
Proof.
  induction a as [|x a IH]; [done |]. by rewrite str_app_cons, IH.
Qed.

Lemma includes_slash_cons c r :
  Str.includes "/" (String c r) = false →
  c ≠ Path.slash ∧ Str.includes "/" r = false.
Proof.
  simpl. destruct (decide ("/"%char = c)) as [<-|Hc]; simpl; [done |].
  intros Hr. split; [|done]. intros ->. by apply Hc.
Qed.

Lemma validName_inv n :
  Path.validName n = true →
  n ≠ EmptyString ∧ n ≠ "." ∧ n ≠ ".." ∧ Str.includes "/" n = false.
Proof.
  unfold Path.validName. rewrite !andb_true_iff, !bool_decide_eq_true, negb_true_iff.
  tauto.
Qed.

Lemma validName_not_absolute n : Path.validName n = true → Path.isAbsolute n = false.
Proof.
  intros (_ & _ & _ & Hs)%validName_inv. destruct n as [|c r]; [done |].
  unfold Path.isAbsolute. simpl in *. by destruct (decide ("/"%char = c)).
Qed.

End StringFacts.

Section PathFacts.

Lemma split_nonempty s : Path.split s ≠ [].
Proof.
  destruct s as [|c r]; simpl; [done |].
  destruct (decide (c = Path.slash)); [done |]. by destruct (Path.split r).
Qed.

Lemma split_app_slash a b :
  Path.split (a +:+ "/" +:+ b) = Path.split a ++ Path.split b.
Proof.
  induction a as [|c a IH]; simpl; [done |].
  destruct (decide (c = Path.slash)); [by rewrite IH |].
  rewrite IH. pose proof (split_nonempty a). by destruct (Path.split a).
Qed.

Lemma split_noslash n : Str.includes "/" n = false → Path.split n = [n].
Proof.
  induction n as [|c r IH]; [done |].
  intros [Hc Hr]%includes_slash_cons. simpl.
  rewrite decide_False by done. by rewrite IH.
Qed.

Lemma split_pieces_noslash s :
  Forall (λ x, Str.includes "/" x = false) (Path.split s).
Proof.
  induction s as [|c r IH]; simpl; [by repeat constructor |].
  destruct (decide (c = Path.slash)) as [->|Hc]; [by constructor |].
  pose proof (split_nonempty r).
  destruct (Path.split r) as [|h t]; [done |].
  inversion IH as [|? ? Hh Ht]; subst. constructor; [|done].
  simpl. destruct (decide ("/"%char = c)) as [<-|]; [by destruct Hc |]. done.
Qed.

Lemma normStep_empty st : Path.normStep st EmptyString = st.
Proof. reflexivity. Qed.

Lemma normStep_valid st n : Path.validName n = true → Path.normStep st n = n :: st.
Proof.
  intros (H1 & H2 & H3 & _)%validName_inv. unfold Path.normStep.
  by rewrite !decide_False.
Qed.

Lemma normStep_keeps_valid st seg :
  Str.includes "/" seg = false →
  Forall (λ n, Path.validName n = true) st →
  Forall (λ n, Path.validName n = true) (Path.normStep st seg).
Proof.
  intros Hs Hst. unfold Path.normStep.
  destruct (decide (seg = EmptyString)); [done |].
  destruct (decide (seg = ".")); [done |].
  destruct (decide (seg = "..")).
  - destruct st; [done |]. by inversion Hst.
  - constructor; [|done]. unfold Path.validName.
    rewrite !andb_true_iff, !bool_decide_eq_true, negb_true_iff. tauto.
Qed.

Lemma fold_normStep_valid segs st :
  Forall (λ x, Str.includes "/" x = false) segs →
  Forall (λ n, Path.validName n = true) st →
  Forall (λ n, Path.validName n = true) (fold_left Path.normStep segs st).
Proof.
  revert st. induction segs as [|s segs IH]; intros st Hs Hst; simpl; [done |].
  inversion Hs; subst. apply IH; [done |]. by apply normStep_keeps_valid.
Qed.

(** Every name [path.resolve] puts in its result is a legal entry name. *)
Lemma resolveSegs_valid cwd args :
  Forall (λ n, Path.validName n = true) (Path.resolveSegs cwd args).
Proof.
  unfold Path.resolveSegs. destruct (Path.resolveLoop _ _) as [r a].
  unfold Path.normalize. apply Forall_rev.
  apply fold_normStep_valid; [apply split_pieces_noslash | constructor].
Qed.

Lemma fold_normStep_join segs st :
  Forall (λ n, Path.validName n = true) segs →
  fold_left Path.normStep (Path.split (Path.joinSegs segs)) st = rev segs ++ st.
Proof.
  revert st. induction segs as [|s segs IH]; intros st Hv; [done |].
  inversion Hv as [|? ? Hs Hrest]; subst.
  pose proof Hs as (_ & _ & _ & Hns)%validName_inv.
  destruct segs as [|s2 rest].
  - simpl. rewrite split_noslash by done. simpl. by rewrite normStep_valid.
  - change (Path.joinSegs (s :: s2 :: rest))
      with (s +:+ "/" +:+ Path.joinSegs (s2 :: rest)).
    rewrite split_app_slash, split_noslash by done.
    simpl fold_left. rewrite normStep_valid by done.
    rewrite IH by done. simpl. by rewrite <- !app_assoc.
Qed.

(** Resolving a rendered list of legal names gives the list back. *)
Lemma resolveSegs_render cwd segs :
  Forall (λ n, Path.validName n = true) segs →
  Path.resolveSegs cwd [Path.render segs] = segs.
Proof.
  intros Hv. unfold Path.resolveSegs, Path.render. simpl.
  unfold Path.normalize.
  change (String "/" (Path.joinSegs segs +:+ "/"))
    with (("/" +:+ Path.joinSegs segs) +:+ "/" +:+ EmptyString).
  rewrite split_app_slash. simpl Path.split. rewrite str_app_nil_l.
  simpl fold_left. change (Path.normStep [] EmptyString) with (@nil string).
  rewrite fold_left_app, fold_normStep_join by done. simpl.
  rewrite app_nil_r.
  change (Path.normStep (rev segs) EmptyString) with (rev segs).
  apply rev_involutive.
Qed.

Lemma render_inj a b :
  Forall (λ n, Path.validName n = true) a →
  Forall (λ n, Path.validName n = true) b →
  Path.render a = Path.render b → a = b.
Proof.
  intros Ha Hb Heq.
  rewrite <- (resolveSegs_render EmptyString a), <- (resolveSegs_render EmptyString b) by done.
  by rewrite Heq.
Qed.

Lemma resolveLoop_acc l r :
  Path.resolveLoop l r =
    ((Path.resolveLoop l EmptyString).1 +:+ r, (Path.resolveLoop l EmptyString).2).
Proof.
  revert r. induction l as [|p rest IH]; intros r; simpl; [done |].
  destruct (decide (p = EmptyString)); [apply IH |].
  destruct (Path.isAbsolute p); simpl.
  - by rewrite str_app_assoc.
  - rewrite (IH (p +:+ "/" +:+ r)), (IH (p +:+ "/" +:+ EmptyString)). simpl.
    by rewrite !str_app_assoc.
Qed.

(** What [path.resolve] normalizes ends with a separator. *)
Lemma resolve_input_ends_slash cwd l :
  let '(s, a) := Path.resolveLoop l EmptyString in
  ∃ G, (if a then s else cwd +:+ "/" +:+ s) = G +:+ "/".
Proof.
  induction l as [|p rest IH]; simpl.
  - exists cwd. done.
  - destruct (decide (p = EmptyString)); [apply IH |].
    destruct (Path.isAbsolute p).
    + exists p. done.
    + rewrite resolveLoop_acc.
      destruct (Path.resolveLoop rest EmptyString) as [s a]. simpl.
      destruct a.
      * exists (s +:+ p). by rewrite !str_app_assoc.
      * exists (cwd +:+ "/" +:+ s +:+ p). by rewrite !str_app_assoc.
Qed.

(** [resolve(...args, n) = resolve(...args) + '/' + n] for a legal name. *)
Lemma resolveSegs_snoc cwd args n :
  Path.validName n = true →
  Path.resolveSegs cwd (args ++ [n]) = Path.resolveSegs cwd args ++ [n].
Proof.
  intros Hn. pose proof Hn as (Hne & _ & _ & Hns)%validName_inv.
  unfold Path.resolveSegs. rewrite rev_app_distr. simpl.
  rewrite decide_False by done. rewrite validName_not_absolute by done.
  rewrite resolveLoop_acc.
  pose proof (resolve_input_ends_slash cwd (rev args)) as HG.
  destruct (Path.resolveLoop (rev args) EmptyString) as [s a]. simpl.
  destruct HG as [G HG].
  assert ((if a then s +:+ n +:+ "/" +:+ EmptyString
           else cwd +:+ "/" +:+ s +:+ n +:+ "/" +:+ EmptyString)
          = G +:+ "/" +:+ n +:+ "/" +:+ EmptyString) as ->.
  { rewrite <- (str_app_assoc G), <- HG. destruct a; by rewrite ?str_app_assoc. }
  rewrite HG.
  change (G +:+ "/") with (G +:+ "/" +:+ EmptyString).
  rewrite !split_app_slash, (split_noslash n) by done.
  unfold Path.normalize. rewrite !fold_left_app. simpl.
  rewrite (normStep_valid _ n), !normStep_empty by done. done.
Qed.

Lemma resolve_resolve_snoc cwd args n :
  Path.validName n = true →
  Path.resolve cwd [Path.resolve cwd args; n] = Path.resolve cwd (args ++ [n]).
Proof.
  intros Hn. unfold Path.resolve. f_equal.
  match goal with
  | |- Path.resolveSegs cwd [?x; n] = _ =>
      change (Path.resolveSegs cwd ([x] ++ [n]) = Path.resolveSegs cwd (args ++ [n]))
  end.
  rewrite !resolveSegs_snoc by done.
  by rewrite resolveSegs_render by apply resolveSegs_valid.
Qed.

End PathFacts.

(** ** The file system and the clean-build loop *)

Section FsFacts.
Variable cwd : string.

Lemma below_Some k k' r : Fs.below k k' = Some r ↔ k' = k ++ r.
Proof.
  revert k'. induction k as [|a k IH]; intros k'; simpl.
  - split; [by intros [= ->] | by intros ->].
  - destruct k' as [|b k']; [split; [done | by intros [=]] |].
    destruct (decide (a = b)) as [->|Hne].
    + rewrite IH. split; [by intros -> | by intros [= ->]].
    + split; [done | intros [= ? ?]; by destruct Hne].
Qed.

Lemma below_app k r : Fs.below k (k ++ r) = Some r.
Proof. by apply below_Some. Qed.

Lemma childName_Some k k' n :
  Fs.childName k k' = Some n ↔ k' = k ++ [n] ∧ Path.validName n = true.
Proof.
  unfold Fs.childName. split.
  - destruct (Fs.below k k') as [[|m [|m' r]]|] eqn:Hb; try done.
    destruct (Path.validName m) eqn:Hm; [|done].
    intros [= ->]. by apply below_Some in Hb.
  - intros [-> Hv]. by rewrite below_app, Hv.
Qed.

(** The names [readdirSync] lists: the legal names stored below [k]. *)
Lemma elem_of_children (fs : FS) (k : list string) (n : string) :
  n ∈ Fs.children fs k ↔ Path.validName n = true ∧ is_Some (fs !! (k ++ [n])).
Proof.
  unfold Fs.children. rewrite list_elem_of_omap. split.
  - intros (k' & Hin & (-> & Hv)%childName_Some). split; [done |].
    apply list_elem_of_fmap in Hin as ([k2 v] & -> & Hin).
    apply elem_of_map_to_list in Hin. by exists v.
  - intros (Hv & v & Hl). exists (k ++ [n]). split; [| by apply childName_Some].
    apply list_elem_of_fmap. exists (k ++ [n], v). split; [done |].
    by apply elem_of_map_to_list.
Qed.

Lemma NoDup_omap_inj {A B} (f : A → option B) (l : list A) :
  (∀ x y z, f x = Some z → f y = Some z → x = y) → NoDup l → NoDup (omap f l).
Proof.
  intros Hinj. induction 1 as [|x l Hx Hl IH]; simpl; [constructor |].
  destruct (f x) as [z|] eqn:Hfx; [|done].
  constructor; [|done]. rewrite list_elem_of_omap. intros (y & Hy & Hfy).
  by rewrite (Hinj _ _ _ Hfx Hfy) in Hx.
Qed.

Lemma NoDup_children (fs : FS) (k : list string) : NoDup (Fs.children fs k).
Proof.
  apply NoDup_omap_inj; [| apply NoDup_fst_map_to_list].
  intros x y z (-> & _)%childName_Some (-> & _)%childName_Some. done.
Qed.

(** The path [resolve(dir, name)] names the entry [name] of [dir]. *)
Lemma key_child dir n :
  Path.validName n = true →
  Fs.key cwd (Path.resolve cwd [dir; n]) = Fs.key cwd dir ++ [n].
Proof.
  intros Hn. unfold Fs.key, Path.resolve.
  rewrite resolveSegs_render by apply resolveSegs_valid.
  by apply (resolveSegs_snoc cwd [dir] n).
Qed.

Variable options : Config.

Lemma cleanBuild_unfold fs :
  cleanBuild cwd options fs =
    match fs !! Fs.key cwd (path (output options)) with
    | Some Dir =>
        forOf (Fs.children fs (Fs.key cwd (path (output options)))) (cleanStep cwd options) fs
    | Some File => (fs, Throw (ENOTDIR (path (output options))))
    | None => (fs, Normal tt)
    end.
Proof.
  unfold cleanBuild, bind, Fs.existsSync, Fs.readdirSync, ret.
  destruct (fs !! Fs.key cwd (path (output options))) as [[|]|] eqn:Hk;
    simpl; rewrite ?Hk; reflexivity.
Qed.

Lemma cleanStep_frame (n : string) (fs : FS) (k' : list string) :
  Path.validName n = true →
  (n ≠ "manifest.json" → k' ≠ Fs.key cwd (path (output options)) ++ [n]) →
  (cleanStep cwd options n fs).1 !! k' = fs !! k'.
Proof.
  intros Hn Hk. unfold cleanStep.
  destruct (decide (n ≠ "manifest.json")) as [Hm|]; [|done].
  unfold Fs.unlinkSync. rewrite key_child by done.
  destruct (fs !! _) as [[|]|]; simpl; try done.
  apply lookup_delete_ne. intros Heq. by apply (Hk Hm).
Qed.

Lemma forOf_clean_frame (ns : list string) (fs : FS) (k' : list string) :
  Forall (λ n, Path.validName n = true) ns →
  (∀ n, n ∈ ns → n ≠ "manifest.json" → k' ≠ Fs.key cwd (path (output options)) ++ [n]) →
  (forOf ns (cleanStep cwd options) fs).1 !! k' = fs !! k'.
Proof.
  revert fs. induction ns as [|n ns IH]; intros fs Hv Hk; [done |].
  inversion Hv; subst. simpl. unfold bind.
  pose proof (cleanStep_frame n fs k') as Hstep.
  destruct (cleanStep cwd options n fs) as [fs1 [[]|e]]; simpl in *.
  - rewrite IH; [| done | intros; apply Hk; [by right | done]].
    apply Hstep; [done |]. apply Hk. by left.
  - apply Hstep; [done |]. apply Hk. by left.
Qed.

Lemma forOf_clean_ok (ns : list string) (fs : FS) :
  NoDup ns →
  Forall (λ n, Path.validName n = true) ns →
  (∀ n, n ∈ ns → n ≠ "manifest.json" →
        fs !! (Fs.key cwd (path (output options)) ++ [n]) = Some File) →
  (forOf ns (cleanStep cwd options) fs).2 = Normal tt ∧
  ∀ n, n ∈ ns → n ≠ "manifest.json" →
       (forOf ns (cleanStep cwd options) fs).1 !! (Fs.key cwd (path (output options)) ++ [n]) = None.
Proof.
  revert fs. induction ns as [|n ns IH]; intros fs Hnd Hv Hf.
  { split; [done |]. intros n Hn. by apply elem_of_nil in Hn. }
  inversion Hnd as [|? ? Hnotin Hnd']; subst. inversion Hv as [|? ? Hvn Hv']; subst.
  simpl. unfold bind.
  assert (∃ fs1, cleanStep cwd options n fs = (fs1, Normal tt) ∧
            (n ≠ "manifest.json" → fs1 !! (Fs.key cwd (path (output options)) ++ [n]) = None) ∧
            ∀ n', n' ∈ ns → n' ≠ "manifest.json" →
                  fs1 !! (Fs.key cwd (path (output options)) ++ [n']) = Some File)
    as (fs1 & -> & Hgone & Hf1).
  { unfold cleanStep. destruct (decide (n ≠ "manifest.json")) as [Hm|Hm].
    - unfold Fs.unlinkSync. rewrite key_child by done.
      rewrite (Hf n) by (done || by left).
      eexists. split; [done |]. split; [intros; apply lookup_delete_eq |].
      intros n' Hn' Hm'. rewrite lookup_delete_ne; [apply Hf; [by right | done] |].
      intros Heq%app_inv_head. by simplify_eq.
    - exists fs. split; [done |]. split; [done |].
      intros n' Hn' Hm'. apply Hf; [by right | done]. }
  destruct (IH fs1 Hnd' Hv' Hf1) as [Hok Hnone]. split; [done |].
  intros n' [->|Hn']%elem_of_cons Hm'; [| by apply Hnone].
  rewrite forOf_clean_frame; [by apply Hgone | done |].
  intros n2 Hn2 _ Heq%app_inv_head. by simplify_eq.
Qed.

(** Whatever the outcome, [cleanBuild] leaves alone everything but the
    entries of the output directory with a name other than
    [manifest.json]. *)
Lemma cleanBuild_frame (fs : FS) (k' : list string) :
  (∀ n, n ∈ Fs.children fs (Fs.key cwd (path (output options))) →
        n ≠ "manifest.json" →
        k' ≠ Fs.key cwd (path (output options)) ++ [n]) →
  (cleanBuild cwd options fs).1 !! k' = fs !! k'.
Proof.
  intros Hk. rewrite cleanBuild_unfold.
  destruct (fs !! Fs.key cwd (path (output options))) as [[|]|]; try done.
  apply forOf_clean_frame; [| done].
  apply Forall_forall. intros n Hn. by apply elem_of_children in Hn as [? _].
Qed.

(** In particular it never removes anything named [manifest.json]. *)
Lemma cleanBuild_keeps_manifest (fs : FS) (k' : list string) :
  last k' = Some "manifest.json" →
  (cleanBuild cwd options fs).1 !! k' = fs !! k'.
Proof.
  intros Hlast. apply cleanBuild_frame. intros n _ Hn ->.
  rewrite last_snoc in Hlast. by simplify_eq.
Qed.

(** When the output directory exists and holds only files besides
    [manifest.json], [cleanBuild] returns normally and has removed every
    entry with another name. *)
Lemma cleanBuild_ok (fs : FS) :
  fs !! Fs.key cwd (path (output options)) = Some Dir →
  (∀ n, n ∈ Fs.children fs (Fs.key cwd (path (output options))) →
        n ≠ "manifest.json" →
        fs !! (Fs.key cwd (path (output options)) ++ [n]) = Some File) →
  (cleanBuild cwd options fs).2 = Normal tt ∧
  ∀ n, n ∈ Fs.children (cleanBuild cwd options fs).1 (Fs.key cwd (path (output options))) ↔
       n = "manifest.json" ∧ n ∈ Fs.children fs (Fs.key cwd (path (output options))).
Proof.
  intros Hdir Hfiles.
  rewrite cleanBuild_unfold, Hdir.
  set (k := Fs.key cwd (path (output options))) in *.
  assert (Forall (λ n, Path.validName n = true) (Fs.children fs k)) as Hvalid.
  { apply Forall_forall. intros n Hn. by apply elem_of_children in Hn as [? _]. }
  destruct (forOf_clean_ok (Fs.children fs k) fs) as [Hok Hnone];
    [apply NoDup_children | done | done |].
  split; [done |]. intros n. rewrite !elem_of_children.
  destruct (decide (n = "manifest.json")) as [->|Hm].
  - rewrite forOf_clean_frame; [tauto | done |].
    intros n _ Hn Heq%app_inv_head. inversion Heq. by destruct Hn.
  - split; [| by intros [? _]]. intros [Hv Hsome]. exfalso.
    destruct (decide (n ∈ Fs.children fs k)) as [Hin|Hout].
    + rewrite Hnone in Hsome by done. by apply is_Some_None in Hsome.
    + apply Hout, elem_of_children. split; [done |].
      rewrite forOf_clean_frame in Hsome; [done | done |].
      intros n' Hn' _ Heq%app_inv_head. inversion Heq. by subst.
Qed.

Lemma cleanBuild_missing (fs : FS) :
  fs !! Fs.key cwd (path (output options)) = None →
  cleanBuild cwd options fs = (fs, Normal tt).
Proof. intros Hk. by rewrite cleanBuild_unfold, Hk. Qed.

End FsFacts.

(** ** Paths the configuration builds *)

Section ResolveNames.
Variable cwd : string.

Lemma resolveSegs_names args ns :
  Forall (λ n, Path.validName n = true) ns →
  Path.resolveSegs cwd (args ++ ns) = Path.resolveSegs cwd args ++ ns.
Proof.
  revert args. induction ns as [|n ns IH]; intros args Hv.
  - by rewrite !app_nil_r.
  - inversion Hv; subst.
    rewrite (cons_middle n args ns), !app_assoc.
    rewrite IH, resolveSegs_snoc by done. by rewrite <- app_assoc.
Qed.

(** [resolve(d, n1, ..., nk)] for literal names: the directory [d]
    followed by the names. *)
Lemma resolve_names d ns :
  Forall (λ n, Path.validName n = true) ns →
  Path.resolve cwd (d :: ns) = Path.render (Path.resolveSegs cwd [d] ++ ns).
Proof.
  intros Hv. unfold Path.resolve. f_equal. by apply (resolveSegs_names [d]).
Qed.

Lemma resolve_resolve_names d ms ns :
  Forall (λ n, Path.validName n = true) ms →
  Forall (λ n, Path.validName n = true) ns →
  Path.resolve cwd (Path.resolve cwd (d :: ms) :: ns)
  = Path.render (Path.resolveSegs cwd [d] ++ ms ++ ns).
Proof.
  intros Hm Hn. rewrite (resolve_names _ ns) by done.
  unfold Path.resolve at 1. rewrite resolveSegs_render by apply resolveSegs_valid.
  change (d :: ms) with ([d] ++ ms).
  rewrite (resolveSegs_names [d] ms) by done. by rewrite <- app_assoc.
Qed.

Lemma key_resolve_names d ns :
  Forall (λ n, Path.validName n = true) ns →
  Fs.key cwd (Path.resolve cwd (d :: ns)) = Path.resolveSegs cwd [d] ++ ns.
Proof.
  intros Hv. unfold Fs.key. rewrite resolve_names by done.
  apply resolveSegs_render. apply Forall_app. split; [apply resolveSegs_valid | done].
Qed.

End ResolveNames.

(** ** The exported value *)

Section ModuleFacts.
Variable p : Process.

Lemma evalCommitHash_eq :
  evalCommitHash p =
    Normal (match git_rev_parse_HEAD p with
            | Normal out => Some (Str.trim out)
            | Throw _ => None
            end).
Proof. unfold evalCommitHash. by destruct (git_rev_parse_HEAD p). Qed.

Lemma isDev_iff : isDev p = true ↔ NODE_ENV p = Some "development".
Proof. unfold isDev. apply bool_decide_eq_true. Qed.

Lemma module_exports_dev :
  isDev p = true →
  ∃ h, evalCommitHash p = Normal h ∧
       module_exports p =
         Normal (Single (pushPlugins (baseConfig p h)
                   [FriendlyErrorsWebpackPlugin; PreactRefreshWebpackPlugin])).
Proof.
  intros Hd. unfold module_exports. rewrite evalCommitHash_eq, Hd. eauto.
Qed.

Lemma module_exports_prod :
  isDev p = false →
  ∃ h, evalCommitHash p = Normal h ∧
       module_exports p =
         Normal (Multi [pushPlugins (baseConfig p h) [cleanBuildPlugin];
                        nodeCfg p (pushPlugins (baseConfig p h) [cleanBuildPlugin])]).
Proof.
  intros Hd. unfold module_exports. rewrite evalCommitHash_eq, Hd. eauto.
Qed.

End ModuleFacts.

(** C2: a configuration with the node target is exported exactly when the
    mode is Production: in Development the module exports the browser
    configuration alone, in Production the array of the browser
    configuration and the node-target configuration. *)
Theorem server_descriptor_iff_production (p : Process) :
  (serverConfigs p ≠ [] ↔ isDev p = false) ∧
  if isDev p
  then ∃ c, module_exports p = Normal (Single c) ∧
            mode c = "development" ∧ target c = None ∧ serverConfigs p = []
  else ∃ b n, module_exports p = Normal (Multi [b; n]) ∧
              mode b = "production" ∧ mode n = "production" ∧
              target b = None ∧ target n = Some "node" ∧ serverConfigs p = [n].
Proof.
  destruct (isDev p) eqn:Hd.
  - destruct (module_exports_dev p Hd) as (h & _ & He).
    assert (serverConfigs p = []) as Hs by (unfold serverConfigs; by rewrite He).
    split; [by rewrite Hs |].
    eexists. split; [exact He |]. simpl. by rewrite Hd.
  - destruct (module_exports_prod p Hd) as (h & _ & He).
    assert (serverConfigs p = [nodeCfg p (pushPlugins (baseConfig p h) [cleanBuildPlugin])])
      as Hs by (unfold serverConfigs; by rewrite He).
    split; [by rewrite Hs |].
    do 2 eexists. split; [exact He |]. simpl. by rewrite Hd.
Qed.

(** C3: the script and style filename patterns of the browser
    configuration are the name-based ones, without any hash token, in
    Development, and the content-hash ones in Production; in Development
    they are the same for every process. *)
Theorem filename_patterns_by_mode (p : Process) :
  ∃ b, browserConfig p = Some b ∧
    if isDev p
    then filenamePatterns b = ["[name].js"; "[name].chk.js"; "[name].css"; "[name].css"] ∧
         Forall (λ pat, Str.includes "[name]" pat = true ∧ Str.includes "hash" pat = false)
                (filenamePatterns b) ∧
         ∀ p' b', isDev p' = true → browserConfig p' = Some b' →
                  filenamePatterns b' = filenamePatterns b
    else filenamePatterns b =
           ["[contenthash].js"; "[contenthash].js"; "[contenthash].css"; "[contenthash].css"] ∧
         Forall (λ pat, Str.includes "[contenthash]" pat = true) (filenamePatterns b).
Proof.
  assert (∀ q b, isDev q = true → browserConfig q = Some b →
            filenamePatterns b = ["[name].js"; "[name].chk.js"; "[name].css"; "[name].css"])
    as Hdev.
  { intros q b Hq. destruct (module_exports_dev q Hq) as (h & _ & He).
    unfold browserConfig. rewrite He. intros [= <-].
    unfold filenamePatterns. simpl. by rewrite Hq. }
  destruct (isDev p) eqn:Hd.
  - destruct (module_exports_dev p Hd) as (h & _ & He).
    eexists. split; [unfold browserConfig; by rewrite He |].
    rewrite (Hdev p) by (done || unfold browserConfig; by rewrite He).
    split; [done |]. split; [by repeat constructor |].
    intros p' b' Hp' Hb'. by apply (Hdev p').
  - destruct (module_exports_prod p Hd) as (h & _ & He).
    eexists. split; [unfold browserConfig; by rewrite He |].
    unfold filenamePatterns. simpl. rewrite Hd. split; [done |]. by repeat constructor.
Qed.

(** C7: the mode string [development] selects Development; any other
    value of the variable, and its absence, selects Production: production
    mode string, minimization on, content-hash filenames. *)
Theorem mode_selection (p : Process) :
  (isDev p = true ↔ NODE_ENV p = Some "development") ∧
  ∃ e b, module_exports p = Normal e ∧ browserConfig p = Some b ∧
    if decide (NODE_ENV p = Some "development")
    then Forall (λ c, mode c = "development") (configs e) ∧
         minimize (optimization b) = false ∧
         filenamePatterns b = ["[name].js"; "[name].chk.js"; "[name].css"; "[name].css"]
    else Forall (λ c, mode c = "production") (configs e) ∧
         minimize (optimization b) = true ∧
         filenamePatterns b =
           ["[contenthash].js"; "[contenthash].js"; "[contenthash].css"; "[contenthash].css"].
Proof.
  split; [apply isDev_iff |].
  destruct (decide (NODE_ENV p = Some "development")) as [Hn|Hn].
  - assert (isDev p = true) as Hd by by apply isDev_iff.
    destruct (module_exports_dev p Hd) as (h & _ & He).
    do 2 eexists. split; [exact He |]. split; [unfold browserConfig; by rewrite He |].
    unfold filenamePatterns. simpl. rewrite Hd.
    split; [| done]. repeat constructor; simpl; by rewrite Hd.
  - assert (isDev p = false) as Hd.
    { apply not_true_is_false. by rewrite isDev_iff. }
    destruct (module_exports_prod p Hd) as (h & _ & He).
    do 2 eexists. split; [exact He |]. split; [unfold browserConfig; by rewrite He |].
    unfold filenamePatterns. simpl. rewrite Hd.
    split; [| done]. repeat constructor; simpl; by rewrite Hd.
Qed.

(** ** The dev-server proxy *)

(** C8, as stated, fails when [PORT] is set to the empty string: the
    target is then [http://localhost:6969], not [http://localhost:]
    followed by the variable. *)
Lemma proxy_target_empty_PORT :
  ¬ (∀ b port, browserConfig emptyPortProcess = Some b →
               PORT emptyPortProcess = Some port →
               proxy (devServer b) = [("/", "http://localhost:" +:+ port)]).
Proof.
  intros H.
  specialize (H _ EmptyString eq_refl eq_refl). vm_compute in H. discriminate H.
Qed.

(** C8, amended: the proxy target is [http://localhost:] followed by
    [PORT] when it is set to a non-empty string, and by [6969] when it is
    unset or empty. *)
Theorem proxy_target (p : Process) :
  ∃ b tgt, browserConfig p = Some b ∧ proxy (devServer b) = [("/", tgt)] ∧
    match PORT p with
    | Some port =>
        if decide (port = EmptyString) then tgt = "http://localhost:6969"
        else tgt = "http://localhost:" +:+ port
    | None => tgt = "http://localhost:6969"
    end.
Proof.
  assert (∃ b, browserConfig p = Some b ∧
            proxy (devServer b) =
              [("/", "http://localhost:" +:+ orElse (PORT p) (pretty 6969%N))])
    as (b & Hb & Hp).
  { unfold browserConfig. destruct (isDev p) eqn:Hd.
    - destruct (module_exports_dev p Hd) as (h & _ & ->). by eexists.
    - destruct (module_exports_prod p Hd) as (h & _ & ->). by eexists. }
  exists b. eexists. split; [done |]. split; [exact Hp |].
  unfold orElse. destruct (PORT p) as [port|]; [| done].
  by destruct (decide (port = EmptyString)).
Qed.

(** ** The node-target configuration *)

(** C6: in Production the node-target configuration has the single entry
    [src/components/App.jsx], one chunk-count limit, equal to 1, the
    node-externals function as its externals, minimization off, and an
    output directory other than the browser configuration's. *)
Theorem nodeCfg_shape (p : Process) :
  isDev p = false →
  ∃ b n, module_exports p = Normal (Multi [b; n]) ∧ serverConfigs p = [n] ∧
    entry n =
      Path.render (Path.resolveSegs (cwd p) [dirname p] ++ ["src"; "components"; "App.jsx"]) ∧
    chunkCaps n = [1] ∧ chunkCaps b = [] ∧
    externals n = [webpack_node_externals] ∧ externals b = [] ∧
    minimize (optimization n) = false ∧ minimize (optimization b) = true ∧
    path (output n) = Path.render (Path.resolveSegs (cwd p) [dirname p] ++ ["http"; "dist"]) ∧
    path (output b) = Path.render (Path.resolveSegs (cwd p) [dirname p] ++ ["dist"]) ∧
    path (output n) ≠ path (output b).
Proof.
  intros Hd. destruct (module_exports_prod p Hd) as (h & _ & He).
  do 2 eexists. split; [exact He |].
  split; [unfold serverConfigs; by rewrite He |].
  assert (∀ ns, Forall (λ n, Path.validName n = true) ns →
            Forall (λ n, Path.validName n = true)
                   (Path.resolveSegs (cwd p) [dirname p] ++ ns)) as Hvalid.
  { intros ns Hns. apply Forall_app. split; [apply resolveSegs_valid | done]. }
  repeat split; simpl; rewrite ?Hd; try done.
  - unfold src. rewrite (resolve_resolve_names _ _ ["src"]) by by repeat constructor.
    done.
  - by apply resolve_names; repeat constructor.
  - by apply resolve_names; repeat constructor.
  - rewrite !resolve_names by by repeat constructor.
    intros Heq%render_inj; [| by apply Hvalid; repeat constructor..].
    apply app_inv_head in Heq. discriminate Heq.
Qed.

(** The node-target configuration of [prodProcess]. *)
Lemma nodeCfg_shape_witness :
  isDev prodProcess = false ∧
  ∃ b n, module_exports prodProcess = Normal (Multi [b; n]) ∧ serverConfigs prodProcess = [n] ∧
    entry n =
      Path.render (Path.resolveSegs (cwd prodProcess) [dirname prodProcess]
                   ++ ["src"; "components"; "App.jsx"]) ∧
    chunkCaps n = [1] ∧ chunkCaps b = [] ∧
    externals n = [webpack_node_externals] ∧ externals b = [] ∧
    minimize (optimization n) = false ∧ minimize (optimization b) = true ∧
    path (output n) =
      Path.render (Path.resolveSegs (cwd prodProcess) [dirname prodProcess] ++ ["http"; "dist"]) ∧
    path (output b) =
      Path.render (Path.resolveSegs (cwd prodProcess) [dirname prodProcess] ++ ["dist"]) ∧
    path (output n) ≠ path (output b).
Proof. split; [reflexivity | apply (nodeCfg_shape prodProcess); reflexivity]. Defined.

(** ** The revision identifier *)

Section TrimFacts.

Lemma trimStart_split s :
  ∃ pre, s = pre +:+ Str.trimStart s ∧ Str.allWhiteSpace pre = true.
Proof.
  induction s as [|c r (pre & Hr & Hpre)]; [by exists EmptyString |].
  simpl. destruct (Str.isWhiteSpace c) eqn:Hc.
  - exists (String c pre). rewrite str_app_cons, <- Hr. split; [done |].
    simpl. by rewrite Hc, Hpre.
  - by exists EmptyString.
Qed.

Lemma trimStart_first s c :
  Str.first (Str.trimStart s) = Some c → Str.isWhiteSpace c = false.
Proof.
  induction s as [|a r IH]; simpl; [done |].
  destruct (Str.isWhiteSpace a) eqn:Ha; [done |]. simpl. by intros [= <-].
Qed.

Lemma trimEnd_split s :
  ∃ post, s = Str.trimEnd s +:+ post ∧ Str.allWhiteSpace post = true.
Proof.
  induction s as [|c r (post & Hr & Hpost)]; [by exists EmptyString |].
  simpl. destruct (Str.trimEnd r) as [|d r'] eqn:Ht.
  - rewrite str_app_nil_l in Hr. subst post.
    destruct (Str.isWhiteSpace c) eqn:Hc.
    + exists (String c r). split; [done |]. simpl. by rewrite Hc, Hpost.
    + by exists r.
  - exists post. by rewrite str_app_cons, <- Hr.
Qed.

Lemma trimEnd_last s c :
  Str.last (Str.trimEnd s) = Some c → Str.isWhiteSpace c = false.
Proof.
  induction s as [|a r IH]; simpl; [done |].
  destruct (Str.trimEnd r) as [|d r'] eqn:Ht.
  - destruct (Str.isWhiteSpace a) eqn:Ha; simpl; [done |]. by intros [= <-].
  - done.
Qed.

Lemma trimEnd_first s c :
  Str.first s = Some c → Str.isWhiteSpace c = false →
  Str.first (Str.trimEnd s) = Some c.
Proof.
  destruct s as [|a r]; simpl; [done |]. intros [= ->] Hc.
  destruct (Str.trimEnd r); [by rewrite Hc | done].
Qed.

(** [trim] removes a run of white space at each end, and no more. *)
Lemma trim_spec s :
  (∃ pre post, s = pre +:+ Str.trim s +:+ post ∧
               Str.allWhiteSpace pre = true ∧ Str.allWhiteSpace post = true) ∧
  (∀ c, Str.first (Str.trim s) = Some c → Str.isWhiteSpace c = false) ∧
  (∀ c, Str.last (Str.trim s) = Some c → Str.isWhiteSpace c = false).
Proof.
  unfold Str.trim. split; [| split].
  - destruct (trimStart_split s) as (pre & Hs & Hpre).
    destruct (trimEnd_split (Str.trimStart s)) as (post & Ht & Hpost).
    exists pre, post. by rewrite <- Ht.
  - intros c Hc. destruct (Str.first (Str.trimStart s)) as [d|] eqn:Hd.
    + pose proof (trimStart_first _ _ Hd) as Hws.
      rewrite (trimEnd_first _ d Hd Hws) in Hc. by simplify_eq.
    + destruct (Str.trimStart s); [done | discriminate Hd].
  - apply trimEnd_last.
Qed.

End TrimFacts.

(** C4: when the [git] command throws, the revision identifier is [null],
    nothing is thrown out of the module and the configuration is exported
    with [null] as the injected revision; when it returns, the identifier
    is its output without the white space at either end. *)
Theorem commitHash_best_effort (p : Process) :
  (∃ e, module_exports p = Normal e) ∧
  ∃ b, browserConfig p = Some b ∧
    match git_rev_parse_HEAD p with
    | Throw _ =>
        evalCommitHash p = Normal None ∧ gitRevisions b = ["null"]
    | Normal out =>
        evalCommitHash p = Normal (Some (Str.trim out)) ∧
        gitRevisions b = [JSON.quote (Str.trim out)] ∧
        (∃ pre post, out = pre +:+ Str.trim out +:+ post ∧
                     Str.allWhiteSpace pre = true ∧ Str.allWhiteSpace post = true) ∧
        (∀ c, Str.first (Str.trim out) = Some c → Str.isWhiteSpace c = false) ∧
        (∀ c, Str.last (Str.trim out) = Some c → Str.isWhiteSpace c = false)
    end.
Proof.
  assert (∃ e b, module_exports p = Normal e ∧ browserConfig p = Some b ∧
            gitRevisions b =
              [JSON.stringifyNullable
                 (match git_rev_parse_HEAD p with
                  | Normal out => Some (Str.trim out)
                  | Throw _ => None
                  end)]) as (e & b & He & Hb & Hg).
  { unfold browserConfig. pose proof (evalCommitHash_eq p) as Hh.
    destruct (isDev p) eqn:Hd.
    - destruct (module_exports_dev p Hd) as (h & Hh' & ->).
      rewrite Hh in Hh'. injection Hh' as <-. by do 2 eexists.
    - destruct (module_exports_prod p Hd) as (h & Hh' & ->).
      rewrite Hh in Hh'. injection Hh' as <-. by do 2 eexists. }
  split; [by exists e |]. exists b. split; [done |].
  rewrite evalCommitHash_eq. destruct (git_rev_parse_HEAD p) as [out|err].
  - split; [done |]. split; [exact Hg |]. apply trim_spec.
  - done.
Qed.

(** ** The clean-build step in a build *)

Section HookFacts.
Variable p : Process.

Lemma bind_ret_tt (m : M unit) (fs : FS) : bind m (λ _, ret tt) fs = m fs.
Proof. unfold bind, ret. by destruct (m fs) as [fs' [[]|err]]. Qed.

Lemma exported_dev e c :
  isDev p = true → module_exports p = Normal e → c ∈ configs e →
  tapsOn compile (createCompiler (cwd p) c) = [] ∧
  runTrace (createCompiler (cwd p) c) = [AssetsWritten (path (output c))].
Proof.
  intros Hd He Hc. destruct (module_exports_dev p Hd) as (h & _ & He').
  rewrite He' in He. injection He as <-.
  apply list_elem_of_singleton in Hc as ->. by split.
Qed.

Lemma exported_prod e c :
  isDev p = false → module_exports p = Normal e → c ∈ configs e →
  (∀ fs, callHook compile (createCompiler (cwd p) c) fs = cleanBuild (cwd p) c fs) ∧
  runTrace (createCompiler (cwd p) c) =
    [Called compile "cleanBuild"; AssetsWritten (path (output c))].
Proof.
  intros Hd He Hc. destruct (module_exports_prod p Hd) as (h & _ & He').
  rewrite He' in He. injection He as <-. simpl in Hc.
  apply elem_of_cons in Hc as [->|Hc]; [| apply list_elem_of_singleton in Hc as ->].
  - split; [| done]. intros fs.
    change (bind (cleanBuild (cwd p) (pushPlugins (baseConfig p h) [cleanBuildPlugin]))
              (λ _, ret tt) fs = cleanBuild (cwd p) (pushPlugins (baseConfig p h) [cleanBuildPlugin]) fs).
    apply bind_ret_tt.
  - split; [| done]. intros fs.
    set (n := nodeCfg p (pushPlugins (baseConfig p h) [cleanBuildPlugin])).
    change (bind (cleanBuild (cwd p) n) (λ _, ret tt) fs = cleanBuild (cwd p) n fs).
    apply bind_ret_tt.
Qed.

End HookFacts.

(** ** The clean-build step in a run *)

Section RunFacts.
Variable cwd : string.
Variable third : Plugin → Hook → M unit.
Variable core : Step → M unit.
Variable c : Config.

Lemma bind_ext_l {A B} (m m' : M A) (k : A → M B) (fs : FS) :
  m fs = m' fs → bind m k fs = bind m' k fs.
Proof. unfold bind. by intros ->. Qed.

Lemma bind_ext_r {A B} (m : M A) (k k' : A → M B) (fs : FS) :
  (∀ a fs', k a fs' = k' a fs') → bind m k fs = bind m k' fs.
Proof. intros Hk. unfold bind. destruct (m fs) as [fs' [a|e]]; [apply Hk | done]. Qed.

Lemma bind_assoc {A B C} (m : M A) (k : A → M B) (k2 : B → M C) (fs : FS) :
  bind (bind m k) k2 fs = bind m (λ a, bind (k a) k2) fs.
Proof. unfold bind. by destruct (m fs) as [fs' [a|e]]. Qed.

Lemma forOf_app {A} (l1 l2 : list A) (f : A → M unit) (fs : FS) :
  forOf (l1 ++ l2) f fs = bind (forOf l1 f) (λ _, forOf l2 f) fs.
Proof.
  revert fs. induction l1 as [|x l1 IH]; intros fs; [done |].
  simpl. rewrite bind_assoc. apply bind_ext_r. intros _ fs'. apply IH.
Qed.

Lemma forOf_cons {A} (x : A) (l : list A) (f : A → M unit) (fs : FS) :
  forOf (x :: l) f fs = bind (f x) (λ _, forOf l f) fs.
Proof. reflexivity. Qed.

Lemma forOf_ext {A} (l : list A) (f g : A → M unit) :
  (∀ x, x ∈ l → ∀ fs, f x fs = g x fs) → ∀ fs, forOf l f fs = forOf l g fs.
Proof.
  induction l as [|x l IH]; intros Hfg fs; [done |]. simpl.
  rewrite (bind_ext_l (f x) (g x)) by (apply Hfg; by left).
  apply bind_ext_r. intros _ fs'. apply IH. intros y Hy. apply Hfg. by right.
Qed.

Lemma pluginTaps_third (h : Hook) (pl : Plugin) :
  pl ≠ cleanBuildPlugin → pluginTaps cwd third c h pl = third pl h.
Proof. by destruct pl. Qed.

Lemma pluginTaps_clean_compile (fs : FS) :
  pluginTaps cwd third c compile cleanBuildPlugin fs = cleanBuild cwd c fs.
Proof. apply (bind_ret_tt (cleanBuild cwd c)). Qed.

Lemma pluginTaps_clean_other (h : Hook) (fs : FS) :
  h ≠ compile → pluginTaps cwd third c h cleanBuildPlugin fs = (fs, Normal tt).
Proof. by destruct h. Qed.

Lemma forOf_pluginTaps_third (l : list Plugin) (h : Hook) (fs : FS) :
  cleanBuildPlugin ∉ l →
  forOf l (pluginTaps cwd third c h) fs = forOf l (λ pl, third pl h) fs.
Proof.
  intros Hl. apply forOf_ext. intros pl Hpl fs'.
  rewrite pluginTaps_third; [done |]. by intros ->.
Qed.

Lemma forOf_pluginTaps_other (l : list Plugin) (h : Hook) (fs : FS) :
  h ≠ compile →
  forOf l (pluginTaps cwd third c h) fs
  = forOf (filter (λ pl, pl ≠ cleanBuildPlugin) l) (λ pl, third pl h) fs.
Proof.
  intros Hh. revert fs. induction l as [|pl l IH]; intros fs; [done |].
  destruct (decide (pl = cleanBuildPlugin)) as [->|Hpl].
  - rewrite filter_cons_False by (by intros H). rewrite forOf_cons. unfold bind.
    rewrite pluginTaps_clean_other by done. apply IH.
  - rewrite filter_cons_True by done. rewrite !forOf_cons.
    rewrite pluginTaps_third by done. apply bind_ext_r. intros _ fs'. apply IH.
Qed.

Lemma runStep_other (st : Step) (fs : FS) :
  st ≠ CallHook compile →
  runStep cwd third core c st fs = otherStep third core c st fs.
Proof.
  intros Hst. destruct st as [h|]; [| done]. simpl.
  apply bind_ext_l, forOf_pluginTaps_other. by intros ->.
Qed.

Lemma filter_no_cleanBuild (l : list Plugin) :
  cleanBuildPlugin ∉ l → filter (λ pl, pl ≠ cleanBuildPlugin) l = l.
Proof.
  induction l as [|pl l IH]; intros Hl; [done |].
  apply not_elem_of_cons in Hl as [Hpl Hl].
  rewrite filter_cons_True by done. by rewrite IH.
Qed.

(** Without the clean-build plugin a run never calls [cleanBuild]. *)
Lemma runCompiler_without (fs : FS) :
  cleanBuildPlugin ∉ plugins c →
  runCompiler cwd third core c fs = forOf lifecycle (otherStep third core c) fs.
Proof.
  intros Hc. apply forOf_ext. intros st _ fs'. destruct st as [h|]; [| done].
  unfold runStep, otherStep. apply bind_ext_l.
  rewrite filter_no_cleanBuild by done. by apply forOf_pluginTaps_third.
Qed.

(** With the clean-build plugin once among the plugins, a run calls
    [cleanBuild] once, on the compiler's own options, when the [compile]
    hook is called. *)
Lemma runCompiler_with (before after : list Plugin) (fs : FS) :
  plugins c = before ++ cleanBuildPlugin :: after →
  cleanBuildPlugin ∉ before → cleanBuildPlugin ∉ after →
  runCompiler cwd third core c fs =
    (do! forOf stepsBeforeCompile (otherStep third core c) in
     do! forOf before (λ pl, third pl compile) in
     do! cleanBuild cwd c in
     do! forOf after (λ pl, third pl compile) in
     do! core (CallHook compile) in
     forOf stepsAfterCompile (otherStep third core c)) fs.
Proof.
  intros Hpl Hb Ha. unfold runCompiler.
  change lifecycle with (stepsBeforeCompile ++ CallHook compile :: stepsAfterCompile).
  rewrite forOf_app.
  rewrite (bind_ext_l _ (forOf stepsBeforeCompile (otherStep third core c))).
  2:{ apply forOf_ext. intros st Hst fs'. apply runStep_other. intros ->.
      repeat (apply elem_of_cons in Hst as [Hst|Hst]; [discriminate Hst |]).
      by apply elem_of_nil in Hst. }
  apply bind_ext_r. intros _ fs1.
  change (forOf (CallHook compile :: stepsAfterCompile) (runStep cwd third core c) fs1)
    with (bind (bind (forOf (plugins c) (pluginTaps cwd third c compile))
                  (λ _, core (CallHook compile)))
            (λ _, forOf stepsAfterCompile (runStep cwd third core c)) fs1).
  rewrite bind_assoc, Hpl.
  rewrite (bind_ext_l _ (bind (forOf before (λ pl, third pl compile))
                           (λ _, bind (cleanBuild cwd c)
                                   (λ _, forOf after (λ pl, third pl compile))))).
  2:{ rewrite forOf_app. rewrite (bind_ext_l _ (forOf before (λ pl, third pl compile)))
        by by apply forOf_pluginTaps_third.
      apply bind_ext_r. intros _ fs2. rewrite forOf_cons.
      rewrite (bind_ext_l _ (cleanBuild cwd c)) by apply pluginTaps_clean_compile.
      apply bind_ext_r. intros _ fs3. by apply forOf_pluginTaps_third. }
  rewrite bind_assoc. apply bind_ext_r. intros _ fs2.
  rewrite bind_assoc. apply bind_ext_r. intros _ fs3.
  apply bind_ext_r. intros _ fs4. apply bind_ext_r. intros _ fs5.
  apply forOf_ext. intros st Hst fs'. apply runStep_other. intros ->.
  repeat (apply elem_of_cons in Hst as [Hst|Hst]; [discriminate Hst |]).
  by apply elem_of_nil in Hst.
Qed.

End RunFacts.

(** C5, as stated, fails: in a Production build the clean-build tap is
    called twice, once by each of the two compilers. *)
Lemma cleanup_runs_twice_in_production :
  isDev prodProcess = false ∧ cleanupRunsOfBuild (build prodProcess) ≠ 1.
Proof. split; [reflexivity |]. vm_compute. discriminate. Qed.

(** C5, amended: in Production the clean-build plugin is once among the
    plugins of each of the two exported configurations, so in a build the
    step runs once in each of the two compilers: a run of a compiler calls
    [cleanBuild] once, on that compiler's own options, hence on its own
    output directory ([dist] for the browser compiler, [http/dist] for the
    server compiler), outside of whose direct entries it changes nothing;
    the call comes when the [compile] hook is called, before the [emit]
    hook and the writing of the assets, which do not happen when it
    throws.  In Development the plugin is not among the plugins and no run
    calls [cleanBuild]. *)
Theorem cleanup_once_per_compiler (p : Process) :
  lifecycle = stepsBeforeCompile ++ CallHook compile :: stepsAfterCompile ∧
  CallHook emit ∈ stepsAfterCompile ∧ WriteAssets ∈ stepsAfterCompile ∧
  if isDev p
  then ∃ b, module_exports p = Normal (Single b) ∧
            build p = [[AssetsWritten (path (output b))]] ∧
            cleanupRunsOfBuild (build p) = 0 ∧
            (cleanBuildPlugin ∉ plugins b) ∧
            (∀ third core (fs : FS),
               runCompiler (cwd p) third core b fs
               = forOf lifecycle (otherStep third core b) fs)
  else ∃ b n, module_exports p = Normal (Multi [b; n]) ∧
              build p = [[Called compile "cleanBuild"; AssetsWritten (path (output b))];
                         [Called compile "cleanBuild"; AssetsWritten (path (output n))]] ∧
              Forall (λ t, cleanupRuns t = 1) (build p) ∧
              cleanupRunsOfBuild (build p) = 2 ∧
              Fs.key (cwd p) (path (output b))
                = Path.resolveSegs (cwd p) [dirname p] ++ ["dist"] ∧
              Fs.key (cwd p) (path (output n))
                = Path.resolveSegs (cwd p) [dirname p] ++ ["http"; "dist"] ∧
              Forall (λ c,
                (∃ before after,
                   plugins c = before ++ cleanBuildPlugin :: after ∧
                   (cleanBuildPlugin ∉ before) ∧ (cleanBuildPlugin ∉ after) ∧
                   (∀ third core (fs : FS),
                      runCompiler (cwd p) third core c fs =
                        (do! forOf stepsBeforeCompile (otherStep third core c) in
                         do! forOf before (λ pl, third pl compile) in
                         do! cleanBuild (cwd p) c in
                         do! forOf after (λ pl, third pl compile) in
                         do! core (CallHook compile) in
                         forOf stepsAfterCompile (otherStep third core c)) fs)) ∧
                (∀ (fs : FS) (k' : list string),
                   (∀ m, k' ≠ Fs.key (cwd p) (path (output c)) ++ [m]) →
                   (cleanBuild (cwd p) c fs).1 !! k' = fs !! k')) [b; n].
Proof.
  split; [reflexivity |].
  split; [by right; left |]. split; [by do 2 right; left |].
  assert (∀ l : list Plugin,
            Forall (λ pl, pl ≠ cleanBuildPlugin) l → cleanBuildPlugin ∉ l) as Hnotin.
  { intros l Hl Hin. rewrite Forall_forall in Hl. by apply (Hl _ Hin). }
  destruct (isDev p) eqn:Hd.
  - destruct (module_exports_dev p Hd) as (h & _ & He).
    eexists. split; [exact He |].
    assert (build p = [[AssetsWritten (path (output (pushPlugins (baseConfig p h)
              [FriendlyErrorsWebpackPlugin; PreactRefreshWebpackPlugin])))]]) as ->.
    { unfold build. rewrite He. simpl.
      by rewrite (proj2 (exported_dev p _ _ Hd He (list_elem_of_here _ _))). }
    split; [done |]. split; [done |].
    assert (cleanBuildPlugin ∉ plugins (pushPlugins (baseConfig p h)
              [FriendlyErrorsWebpackPlugin; PreactRefreshWebpackPlugin])) as Hno
      by (apply Hnotin; by repeat constructor).
    split; [done |]. intros third core fs. by apply runCompiler_without.
  - destruct (module_exports_prod p Hd) as (h & _ & He).
    do 2 eexists. split; [exact He |].
    set (b := pushPlugins (baseConfig p h) [cleanBuildPlugin]) in *.
    assert (build p = [[Called compile "cleanBuild"; AssetsWritten (path (output b))];
                       [Called compile "cleanBuild"; AssetsWritten (path (output (nodeCfg p b)))]])
      as ->.
    { unfold build. rewrite He. simpl.
      rewrite (proj2 (exported_prod p _ b Hd He (list_elem_of_here _ _))).
      rewrite (proj2 (exported_prod p _ (nodeCfg p b) Hd He
                        (list_elem_of_further _ _ _ (list_elem_of_here _ _)))).
      done. }
    split; [done |]. split; [by repeat constructor |]. split; [done |].
    split; [by apply key_resolve_names; repeat constructor |].
    split; [by apply key_resolve_names; repeat constructor |].
    assert (∀ c (fs : FS) (k' : list string),
              (∀ m, k' ≠ Fs.key (cwd p) (path (output c)) ++ [m]) →
              (cleanBuild (cwd p) c fs).1 !! k' = fs !! k') as Hframe.
    { intros c fs k' Hk. apply cleanBuild_frame. intros m _ _. apply Hk. }
    constructor; [| constructor; [| constructor]].
    + split; [| apply Hframe].
      exists (take 3 (plugins b)), []. split; [reflexivity |].
      split; [apply Hnotin; simpl; by repeat constructor |].
      split; [by apply Hnotin |].
      intros third core fs. apply runCompiler_with; [reflexivity | |].
      * apply Hnotin. simpl. by repeat constructor.
      * by apply Hnotin.
    + split; [| apply Hframe].
      exists (take 2 (plugins (nodeCfg p b))), [LimitChunkCountPlugin 1].
      split; [reflexivity |].
      split; [apply Hnotin; simpl; by repeat constructor |].
      split; [apply Hnotin; by repeat constructor |].
      intros third core fs. apply runCompiler_with; [reflexivity | |].
      * apply Hnotin. simpl. by repeat constructor.
      * apply Hnotin. by repeat constructor.
Qed.

(** C9: in every mode the browser configuration carries the manifest
    plugin, writing to [http/dist/manifest.json] under the module's
    directory; no clean-build pass, whatever its outcome and whatever the
    directory it cleans, removes that file or anything else named
    [manifest.json]. *)
Theorem manifest_fixed_and_preserved (p : Process) :
  ∃ e b, module_exports p = Normal e ∧ browserConfig p = Some b ∧
    let manifest :=
      Path.render (Path.resolveSegs (cwd p) [dirname p] ++ ["http"; "dist"; "manifest.json"]) in
    manifestFiles b = [(true, manifest)] ∧
    Fs.key (cwd p) manifest =
      Path.resolveSegs (cwd p) [dirname p] ++ ["http"; "dist"; "manifest.json"] ∧
    (∀ c (fs : FS), c ∈ configs e →
       (callHook compile (createCompiler (cwd p) c) fs).1 !! Fs.key (cwd p) manifest
       = fs !! Fs.key (cwd p) manifest) ∧
    (∀ options (fs : FS) (k : list string),
       last k = Some "manifest.json" →
       (cleanBuild (cwd p) options fs).1 !! k = fs !! k).
Proof.
  assert (Path.resolve (cwd p) [dirname p; "http"; "dist"; "manifest.json"]
          = Path.render (Path.resolveSegs (cwd p) [dirname p] ++ ["http"; "dist"; "manifest.json"]))
    as Hm by by apply resolve_names; repeat constructor.
  assert (Fs.key (cwd p)
            (Path.render (Path.resolveSegs (cwd p) [dirname p] ++ ["http"; "dist"; "manifest.json"]))
          = Path.resolveSegs (cwd p) [dirname p] ++ ["http"; "dist"; "manifest.json"]) as Hk.
  { rewrite <- Hm. by apply key_resolve_names; repeat constructor. }
  assert (last (Path.resolveSegs (cwd p) [dirname p] ++ ["http"; "dist"; "manifest.json"])
          = Some "manifest.json") as Hlast.
  { by rewrite (app_assoc _ ["http"; "dist"] ["manifest.json"]), last_snoc. }
  destruct (isDev p) eqn:Hd.
  - destruct (module_exports_dev p Hd) as (h & _ & He).
    do 2 eexists. split; [exact He |]. split; [unfold browserConfig; by rewrite He |].
    simpl. split; [unfold manifestFiles; simpl; by rewrite Hm |]. split; [exact Hk |].
    split; [| intros; by apply cleanBuild_keeps_manifest].
    intros c fs Hc. unfold callHook.
    by rewrite (proj1 (exported_dev p _ c Hd He Hc)).
  - destruct (module_exports_prod p Hd) as (h & _ & He).
    do 2 eexists. split; [exact He |]. split; [unfold browserConfig; by rewrite He |].
    simpl. split; [unfold manifestFiles; simpl; by rewrite Hm |]. split; [exact Hk |].
    split; [| intros; by apply cleanBuild_keeps_manifest].
    intros c fs Hc. rewrite (proj1 (exported_prod p _ c Hd He Hc)).
    apply cleanBuild_keeps_manifest. by rewrite Hk.
Qed.

Lemma NoDup_only {A} (l : list A) (a : A) :
  NoDup l → (∀ x, x ∈ l ↔ x = a) → l = [a].
Proof.
  intros Hnd Hl. destruct l as [|x l].
  - assert (a ∈ []) as Ha by by apply Hl. by apply elem_of_nil in Ha.
  - assert (x = a) as -> by (apply Hl; by left).
    inversion Hnd as [|? ? Hx Hnd']; subst.
    destruct l as [|y l]; [done |].
    assert (y = a) as -> by (apply Hl; right; by left).
    destruct Hx. by left.
Qed.

(** C1: in Production, when the output directory of an exported
    configuration holds exactly the files [manifest.json], [old.js] and
    [old.css], the compile hook returns normally, has removed [old.js]
    and [old.css] and nothing else, and the directory then lists
    [manifest.json] alone. *)
Theorem cleanBuild_three_entries (p : Process) (e : Exports) (c : Config) (fs : FS) :
  isDev p = false → module_exports p = Normal e → c ∈ configs e →
  fs !! Fs.key (cwd p) (path (output c)) = Some Dir →
  (∀ n, n ∈ Fs.children fs (Fs.key (cwd p) (path (output c)))
        ↔ n ∈ ["manifest.json"; "old.js"; "old.css"]) →
  fs !! (Fs.key (cwd p) (path (output c)) ++ ["old.js"]) = Some File →
  fs !! (Fs.key (cwd p) (path (output c)) ++ ["old.css"]) = Some File →
  ∃ fs' : FS,
    callHook compile (createCompiler (cwd p) c) fs = (fs', Normal tt) ∧
    fs' = delete (Fs.key (cwd p) (path (output c)) ++ ["old.js"])
            (delete (Fs.key (cwd p) (path (output c)) ++ ["old.css"]) fs) ∧
    Fs.readdirSync (cwd p) (path (output c)) fs' = (fs', Normal ["manifest.json"]).
Proof.
  intros Hd He Hc Hdir Hents Hjs Hcss.
  destruct (exported_prod p e c Hd He Hc) as [Hhook _].
  set (k := Fs.key (cwd p) (path (output c))) in *.
  assert (∀ n, n ∈ Fs.children fs k → n ≠ "manifest.json" → fs !! (k ++ [n]) = Some File)
    as Hfiles.
  { intros n Hn%Hents Hm. set_unfold in Hn. destruct Hn as [->|[->|[->|[]]]]; done. }
  destruct (cleanBuild_ok (cwd p) c fs Hdir Hfiles) as [Hok Hkids].
  fold k in Hkids.
  assert (∀ k' : list string, k' ≠ k ++ ["old.js"] → k' ≠ k ++ ["old.css"] →
            (cleanBuild (cwd p) c fs).1 !! k' = fs !! k') as Hframe.
  { intros k' H1 H2. apply cleanBuild_frame. fold k. intros n Hn%Hents Hm.
    set_unfold in Hn. destruct Hn as [->|[->|[->|[]]]]; done. }
  assert (∀ n, n ∈ ["old.js"; "old.css"] → (cleanBuild (cwd p) c fs).1 !! (k ++ [n]) = None)
    as Hgone.
  { intros n Hn. apply eq_None_not_Some. intros Hsome.
    assert (n ∈ Fs.children (cleanBuild (cwd p) c fs).1 k) as Hin.
    { apply elem_of_children. split; [| done].
      set_unfold in Hn. by destruct Hn as [->|[->|[]]]. }
    apply Hkids in Hin as [-> _]. set_unfold in Hn. by destruct Hn as [|[|[]]]. }
  exists (cleanBuild (cwd p) c fs).1. split; [| split].
  - rewrite Hhook. destruct (cleanBuild (cwd p) c fs) as [fs' r]. simpl in Hok. by subst.
  - apply map_eq. intros k'.
    destruct (decide (k' = k ++ ["old.js"])) as [->|H1].
    { rewrite lookup_delete_eq. apply Hgone, list_elem_of_here. }
    destruct (decide (k' = k ++ ["old.css"])) as [->|H2].
    { rewrite lookup_delete_ne, lookup_delete_eq by done.
      apply Hgone, list_elem_of_further, list_elem_of_here. }
    rewrite !lookup_delete_ne by done. by apply Hframe.
  - unfold Fs.readdirSync. fold k.
    rewrite Hframe, Hdir.
    + do 2 f_equal. apply NoDup_only; [apply NoDup_children |].
      intros n. rewrite Hkids, Hents.
      split; [by intros [? _] | intros ->; split; [done | apply list_elem_of_here]].
    + intros Heq. apply (f_equal length) in Heq. rewrite length_app in Heq. simpl in Heq. lia.
    + intros Heq. apply (f_equal length) in Heq. rewrite length_app in Heq. simpl in Heq. lia.
Qed.

(** The browser compiler of [prodProcess] on [staleDist]. *)
Lemma cleanBuild_three_entries_witness :
  ∃ fs' : FS,
    callHook compile
      (createCompiler (cwd prodProcess)
         (pushPlugins (baseConfig prodProcess None) [cleanBuildPlugin])) staleDist
    = (fs', Normal tt) ∧
    fs' = delete ["app"; "dist"; "old.js"] (delete ["app"; "dist"; "old.css"] staleDist) ∧
    Fs.readdirSync (cwd prodProcess) "/app/dist" fs' = (fs', Normal ["manifest.json"]).
Proof.
  apply (cleanBuild_three_entries prodProcess
           (Multi [pushPlugins (baseConfig prodProcess None) [cleanBuildPlugin];
                   nodeCfg prodProcess
                     (pushPlugins (baseConfig prodProcess None) [cleanBuildPlugin])])
           (pushPlugins (baseConfig prodProcess None) [cleanBuildPlugin]) staleDist).
  - reflexivity.
  - reflexivity.
  - apply list_elem_of_here.
  - vm_compute. reflexivity.
  - intros n.
    assert (Fs.children staleDist
              (Fs.key (cwd prodProcess)
                 (path (output (pushPlugins (baseConfig prodProcess None) [cleanBuildPlugin]))))
            = ["old.css"; "old.js"; "manifest.json"]) as -> by (vm_compute; reflexivity).
    rewrite !elem_of_cons, !elem_of_nil. tauto.
  - vm_compute. reflexivity.
  - vm_compute. reflexivity.
Defined.

(** C10: in Production, when the output directory of an exported
    configuration does not exist, [existsSync] answers [false] and the
    compile hook returns normally with the file system as it was. *)
Theorem cleanBuild_missing_directory (p : Process) (e : Exports) (c : Config) (fs : FS) :
  isDev p = false → module_exports p = Normal e → c ∈ configs e →
  fs !! Fs.key (cwd p) (path (output c)) = None →
  Fs.existsSync (cwd p) (path (output c)) fs = (fs, Normal false) ∧
  cleanBuild (cwd p) c fs = (fs, Normal tt) ∧
  callHook compile (createCompiler (cwd p) c) fs = (fs, Normal tt).
Proof.
  intros Hd He Hc Hnone.
  destruct (exported_prod p e c Hd He Hc) as [Hhook _].
  rewrite Hhook, cleanBuild_missing by done.
  split; [| done]. unfold Fs.existsSync. rewrite Hnone.
  do 2 f_equal.
Qed.

(** The node-target compiler of [prodProcess] on [freshCheckout]. *)
Lemma cleanBuild_missing_directory_witness :
  Fs.existsSync (cwd prodProcess) "/app/http/dist" freshCheckout
    = (freshCheckout, Normal false) ∧
  cleanBuild (cwd prodProcess)
    (nodeCfg prodProcess (pushPlugins (baseConfig prodProcess None) [cleanBuildPlugin]))
    freshCheckout = (freshCheckout, Normal tt) ∧
  callHook compile
    (createCompiler (cwd prodProcess)
       (nodeCfg prodProcess (pushPlugins (baseConfig prodProcess None) [cleanBuildPlugin])))
    freshCheckout = (freshCheckout, Normal tt).
Proof.
  apply (cleanBuild_missing_directory prodProcess
           (Multi [pushPlugins (baseConfig prodProcess None) [cleanBuildPlugin];
                   nodeCfg prodProcess
                     (pushPlugins (baseConfig prodProcess None) [cleanBuildPlugin])])
           (nodeCfg prodProcess (pushPlugins (baseConfig prodProcess None) [cleanBuildPlugin]))
           freshCheckout).
  - reflexivity.
  - reflexivity.
  - apply list_elem_of_further, list_elem_of_here.
  - vm_compute. reflexivity.
Defined.

(** * Further properties *)

(** ** More on the clean-build step *)

Section CleanBuildMore.
Variable cwd : string.
Variable options : Config.

Local Abbreviation out := (path (output options)).
Local Abbreviation K := (Fs.key cwd (path (output options))).

(** What one turn of the loop does. *)
Lemma cleanStep_cases (n : string) (fs : FS) :
  Path.validName n = true →
  (n = "manifest.json" ∧ cleanStep cwd options n fs = (fs, Normal tt)) ∨
  (n ≠ "manifest.json" ∧ fs !! (K ++ [n]) = Some File ∧
     cleanStep cwd options n fs = (delete (K ++ [n]) fs, Normal tt)) ∨
  (n ≠ "manifest.json" ∧ fs !! (K ++ [n]) = Some Dir ∧
     cleanStep cwd options n fs = (fs, Throw (EISDIR (Path.resolve cwd [out; n])))) ∨
  (n ≠ "manifest.json" ∧ fs !! (K ++ [n]) = None ∧
     cleanStep cwd options n fs = (fs, Throw (ENOENT (Path.resolve cwd [out; n])))).
Proof.
  intros Hn. unfold cleanStep.
  destruct (decide (n ≠ "manifest.json")) as [Hm|Hm].
  - right. unfold Fs.unlinkSync. rewrite key_child by done.
    destruct (fs !! (K ++ [n])) as [[|]|]; auto.
  - left. split; [| done]. by destruct (decide (n = "manifest.json")).
Qed.

Lemma forOf_clean_change (ns : list string) (fs : FS) (k' : list string) :
  Forall (λ n, Path.validName n = true) ns →
  (forOf ns (cleanStep cwd options) fs).1 !! k' = fs !! k' ∨
  ∃ n, n ∈ ns ∧ k' = K ++ [n] ∧ n ≠ "manifest.json" ∧ fs !! k' = Some File ∧
       (forOf ns (cleanStep cwd options) fs).1 !! k' = None.
Proof.
  revert fs. induction ns as [|x ns IH]; intros fs Hv; [by left |].
  inversion Hv as [|? ? Hx Hv']; subst. simpl. unfold bind.
  destruct (cleanStep_cases x fs Hx)
    as [[-> ->]|[(Hm & Hf & ->)|[(Hm & Hd & ->)|(Hm & Hd & ->)]]]; try by left.
  - destruct (IH fs Hv') as [Heq|(n & Hn & ? & ? & ? & ?)]; [by left |].
    right. exists n. split; [by right | done].
  - destruct (decide (k' = K ++ [x])) as [->|Hne].
    + right. exists x. split; [by left |]. do 3 (split; [done |]).
      destruct (IH (delete (K ++ [x]) fs) Hv') as [->|(n & _ & _ & _ & Hfile & _)].
      * apply lookup_delete_eq.
      * by rewrite lookup_delete_eq in Hfile.
    + destruct (IH (delete (K ++ [x]) fs) Hv') as [->|(n & Hn & -> & ? & Hfile & ?)].
      * left. by apply lookup_delete_ne.
      * right. exists n. split; [by right |]. do 2 (split; [done |]).
        split; [| done]. by rewrite lookup_delete_ne in Hfile.
Qed.

Lemma forOf_clean_outcome (ns : list string) (fs : FS) :
  NoDup ns →
  Forall (λ n, Path.validName n = true) ns →
  (∀ n, n ∈ ns → is_Some (fs !! (K ++ [n]))) →
  ((forOf ns (cleanStep cwd options) fs).2 = Normal tt ∧
   ∀ n, n ∈ ns → n ≠ "manifest.json" → fs !! (K ++ [n]) = Some File) ∨
  ∃ m, m ∈ ns ∧ m ≠ "manifest.json" ∧ fs !! (K ++ [m]) = Some Dir ∧
       (forOf ns (cleanStep cwd options) fs).2
       = Throw (EISDIR (Path.resolve cwd [out; m])).
Proof.
  revert fs. induction ns as [|x ns IH]; intros fs Hnd Hv Hpresent.
  { left. split; [done |]. intros n Hn. by apply elem_of_nil in Hn. }
  inversion Hnd as [|? ? Hx Hnd']; subst. inversion Hv as [|? ? Hvx Hv']; subst.
  simpl. unfold bind.
  destruct (cleanStep_cases x fs Hvx)
    as [[-> ->]|[(Hm & Hf & ->)|[(Hm & Hd & ->)|(Hm & Hd & ->)]]].
  - destruct (IH fs Hnd' Hv') as [[Hok Hfiles]|(m & Hin & ? & ? & ?)].
    + intros n Hn. apply Hpresent. by right.
    + left. split; [done |]. intros n [->|Hn]%elem_of_cons Hne; [done | by apply Hfiles].
    + right. exists m. split; [by right | done].
  - assert (∀ n, n ∈ ns → delete (K ++ [x]) fs !! (K ++ [n]) = fs !! (K ++ [n])) as Hsame.
    { intros n Hn. apply lookup_delete_ne. intros Heq%app_inv_head.
      inversion Heq; subst. done. }
    destruct (IH (delete (K ++ [x]) fs) Hnd' Hv') as [[Hok Hfiles]|(m & Hin & ? & Hdir & ?)].
    + intros n Hn. rewrite Hsame by done. apply Hpresent. by right.
    + left. split; [done |]. intros n [->|Hn]%elem_of_cons Hne; [done |].
      rewrite <- Hsame by done. by apply Hfiles.
    + right. exists m. split; [by right |]. split; [done |].
      split; [| done]. by rewrite <- Hsame.
  - right. exists x. split; [by left | done].
  - destruct (Hpresent x) as [v Hv'']; [by left |]. congruence.
Qed.

(** The outcome of a pass, when the output directory exists. *)
Lemma cleanBuild_dir_outcome (fs : FS) :
  fs !! K = Some Dir →
  ((cleanBuild cwd options fs).2 = Normal tt ∧
   ∀ n, n ∈ Fs.children fs K → n ≠ "manifest.json" → fs !! (K ++ [n]) = Some File) ∨
  ∃ m, m ∈ Fs.children fs K ∧ m ≠ "manifest.json" ∧ fs !! (K ++ [m]) = Some Dir ∧
       (cleanBuild cwd options fs).2 = Throw (EISDIR (Path.resolve cwd [out; m])).
Proof.
  intros Hdir. rewrite cleanBuild_unfold, Hdir.
  apply forOf_clean_outcome; [apply NoDup_children | |].
  - apply Forall_forall. intros n Hn. by apply elem_of_children in Hn as [? _].
  - intros n Hn. by apply elem_of_children in Hn as [_ ?].
Qed.

Lemma removes_true (fs : FS) (k' : list string) :
  removes cwd options fs k' = true ↔
  fs !! K = Some Dir ∧
  ∃ n, k' = K ++ [n] ∧ n ∈ Fs.children fs K ∧ n ≠ "manifest.json".
Proof.
  unfold removes. split.
  - destruct (fs !! K) as [[|]|]; try done.
    destruct (Fs.childName K k') as [n|] eqn:Hc; [| done].
    apply childName_Some in Hc as [-> Hv].
    rewrite andb_true_iff, !bool_decide_eq_true. intros [Hm Hs].
    split; [done |]. exists n. split; [done |]. split; [| done].
    by apply elem_of_children.
  - intros (-> & n & -> & [Hv Hs]%elem_of_children & Hm).
    rewrite (proj2 (childName_Some K (K ++ [n]) n)) by done.
    rewrite andb_true_iff, !bool_decide_eq_true. done.
Qed.

Lemma cleanBuild_normal_iff (fs : FS) :
  (cleanBuild cwd options fs).2 = Normal tt ↔
  fs !! K ≠ Some File ∧
  ∀ k', removes cwd options fs k' = true → fs !! k' = Some File.
Proof.
  split.
  - intros Hok. split.
    + intros Hf. rewrite cleanBuild_unfold, Hf in Hok. discriminate Hok.
    + intros k' (Hdir & n & -> & Hn & Hm)%removes_true.
      destruct (cleanBuild_dir_outcome fs Hdir) as [[_ Hfiles]|(m & _ & _ & _ & Hthrow)].
      * by apply Hfiles.
      * congruence.
  - intros [Hnf Hfiles]. destruct (fs !! K) as [[|]|] eqn:Hk.
    + done.
    + apply cleanBuild_ok; [done |]. intros n Hn Hm. apply Hfiles.
      apply removes_true. split; [done |]. by exists n.
    + by rewrite cleanBuild_missing.
Qed.

(** The file system after a pass that returned normally. *)
Lemma cleanBuild_normal_lookup (fs : FS) (k' : list string) :
  (cleanBuild cwd options fs).2 = Normal tt →
  (cleanBuild cwd options fs).1 !! k'
  = if removes cwd options fs k' then None else fs !! k'.
Proof.
  intros Hok. destruct (removes cwd options fs k') eqn:Hr.
  - pose proof (proj1 (cleanBuild_normal_iff fs) Hok) as [_ Hfiles].
    pose proof (Hfiles k' Hr) as Hfile.
    apply removes_true in Hr as (Hdir & n & -> & Hn & Hm).
    rewrite cleanBuild_unfold, Hdir.
    destruct (forOf_clean_ok cwd options (Fs.children fs K) fs) as [_ Hnone].
    + apply NoDup_children.
    + apply Forall_forall. intros x Hx. by apply elem_of_children in Hx as [? _].
    + intros x Hx Hxm. apply Hfiles, removes_true.
      split; [done |]. by exists x.
    + by apply Hnone.
  - destruct (fs !! K) as [[|]|] eqn:Hk.
    + rewrite cleanBuild_unfold, Hk in Hok. discriminate Hok.
    + apply cleanBuild_frame. intros n Hn Hm ->.
      assert (removes cwd options fs (K ++ [n]) = true) as Hr'; [| congruence].
      apply removes_true. split; [done |]. by exists n.
    + by rewrite cleanBuild_missing.
Qed.

End CleanBuildMore.

Lemma removes_after_normal (cwd : string) (options : Config) (fs : FS) (k' : list string) :
  (cleanBuild cwd options fs).2 = Normal tt →
  removes cwd options (cleanBuild cwd options fs).1 k' = false.
Proof.
  intros Hok. apply not_true_is_false. intros (Hdir' & n & -> & Hn & Hm)%removes_true.
  apply elem_of_children in Hn as [Hv Hsome].
  assert (removes cwd options fs (Fs.key cwd (path (output options))) = false) as HK.
  { apply not_true_is_false. intros (_ & m & Heq & _)%removes_true.
    apply (f_equal length) in Heq. rewrite length_app in Heq. simpl in Heq. lia. }
  rewrite cleanBuild_normal_lookup, HK in Hdir' by done.
  rewrite cleanBuild_normal_lookup in Hsome by done.
  destruct (removes cwd options fs (Fs.key cwd (path (output options)) ++ [n])) eqn:Hr.
  - by apply is_Some_None in Hsome.
  - assert (removes cwd options fs (Fs.key cwd (path (output options)) ++ [n]) = true);
      [| congruence].
    apply removes_true. split; [done |]. exists n. split; [done |].
    split; [| done]. by apply elem_of_children.
Qed.

(** X1: a pass throws when the output path is a file, and then it has
    removed nothing and the error is [ENOTDIR] (the [existsSync] guard
    lets a file through to [readdirSync]); and it throws when the output
    directory has an entry, not named [manifest.json], that is a
    directory. *)
Theorem cleanBuild_throws_on_file_or_subdirectory
    (cwd : string) (options : Config) (fs : FS) :
  fs !! Fs.key cwd (path (output options)) = Some File ∨
  (fs !! Fs.key cwd (path (output options)) = Some Dir ∧
   ∃ n, n ∈ Fs.children fs (Fs.key cwd (path (output options))) ∧
        n ≠ "manifest.json" ∧
        fs !! (Fs.key cwd (path (output options)) ++ [n]) = Some Dir) →
  (∃ e, (cleanBuild cwd options fs).2 = Throw e) ∧
  (fs !! Fs.key cwd (path (output options)) = Some File →
   cleanBuild cwd options fs = (fs, Throw (ENOTDIR (path (output options))))).
Proof.
  intros H. split.
  - destruct H as [Hf|[Hdir (n & Hn & Hm & Hnd)]].
    + rewrite cleanBuild_unfold, Hf. by eexists.
    + destruct (cleanBuild_dir_outcome cwd options fs Hdir)
        as [[_ Hfiles]|(m & _ & _ & _ & ->)]; [| by eexists].
      rewrite (Hfiles n Hn Hm) in Hnd. discriminate Hnd.
  - intros Hf. by rewrite cleanBuild_unfold, Hf.
Qed.

(** [distWithImages] has the subdirectory [img] in [/app/dist]. *)
Lemma cleanBuild_throws_on_file_or_subdirectory_witness :
  (∃ e, (cleanBuild "/home/ci" prodBrowserConfig distWithImages).2 = Throw e) ∧
  (distWithImages !! Fs.key "/home/ci" (path (output prodBrowserConfig)) = Some File →
   cleanBuild "/home/ci" prodBrowserConfig distWithImages
   = (distWithImages, Throw (ENOTDIR (path (output prodBrowserConfig))))).
Proof.
  apply (cleanBuild_throws_on_file_or_subdirectory "/home/ci" prodBrowserConfig
           distWithImages).
  right. split; [vm_compute; reflexivity |].
  exists "img". split; [| split; [discriminate | vm_compute; reflexivity]].
  assert (Fs.children distWithImages (Fs.key "/home/ci" (path (output prodBrowserConfig)))
          = ["main.js"; "manifest.json"; "img"]) as -> by (vm_compute; reflexivity).
  do 2 apply list_elem_of_further. apply list_elem_of_here.
Defined.

(** X3: whether it returns or throws, a pass changes nothing but direct
    entries of the output directory that are not named [manifest.json]
    and are not directories, and these it can only remove: it creates
    nothing, and it leaves alone every directory, everything inside
    subdirectories and everything outside the output directory. *)
Theorem cleanBuild_changes_only_own_entries
    (cwd : string) (options : Config) (fs : FS) (k' : list string) :
  (cleanBuild cwd options fs).1 !! k' = fs !! k' ∨
  ((cleanBuild cwd options fs).1 !! k' = None ∧
   is_Some (fs !! k') ∧ fs !! k' ≠ Some Dir ∧
   fs !! Fs.key cwd (path (output options)) = Some Dir ∧
   ∃ n, k' = Fs.key cwd (path (output options)) ++ [n] ∧ n ≠ "manifest.json").
Proof.
  rewrite cleanBuild_unfold.
  destruct (fs !! Fs.key cwd (path (output options))) as [[|]|] eqn:Hk; try by left.
  destruct (forOf_clean_change cwd options
              (Fs.children fs (Fs.key cwd (path (output options)))) fs k')
    as [Heq|(n & _ & -> & Hm & Hf & Hnone)].
  - apply Forall_forall. intros x Hx. by apply elem_of_children in Hx as [? _].
  - by left.
  - right. split; [done |]. rewrite Hf. split; [by eexists |]. split; [done |].
    split; [done |]. by exists n.
Qed.

Lemma NoDup_none {A} (l : list A) : (∀ x, x ∉ l) → l = [].
Proof. destruct l as [|x l]; [done |]. intros H. destruct (H x). by left. Qed.

(** X4: after a pass that returned normally from an existing output
    directory, the directory is still there and lists [manifest.json]
    alone if it had such an entry, and nothing otherwise. *)
Theorem cleanBuild_leaves_only_manifest (cwd : string) (options : Config) (fs : FS) :
  fs !! Fs.key cwd (path (output options)) = Some Dir →
  (cleanBuild cwd options fs).2 = Normal tt →
  (cleanBuild cwd options fs).1 !! Fs.key cwd (path (output options)) = Some Dir ∧
  Fs.children (cleanBuild cwd options fs).1 (Fs.key cwd (path (output options)))
  = if decide ("manifest.json" ∈ Fs.children fs (Fs.key cwd (path (output options))))
    then ["manifest.json"] else [].
Proof.
  intros Hdir Hok.
  assert (∀ n, n ∈ Fs.children fs (Fs.key cwd (path (output options))) →
               n ≠ "manifest.json" →
               fs !! (Fs.key cwd (path (output options)) ++ [n]) = Some File) as Hfiles.
  { destruct (cleanBuild_dir_outcome cwd options fs Hdir) as [[_ Hf]|(m & _ & _ & _ & Ht)];
      [done | congruence]. }
  destruct (cleanBuild_ok cwd options fs Hdir Hfiles) as [_ Hkids]. split.
  - rewrite cleanBuild_frame; [done |]. intros n _ _ Heq.
    apply (f_equal length) in Heq. rewrite length_app in Heq. simpl in Heq. lia.
  - destruct (decide _) as [Hin|Hout].
    + apply NoDup_only; [apply NoDup_children |]. intros n. rewrite Hkids.
      split; [by intros [? _] | by intros ->].
    + apply NoDup_none. intros n [-> Hn]%Hkids. done.
Qed.

Lemma cleanBuild_leaves_only_manifest_witness :
  (cleanBuild "/home/ci" prodBrowserConfig staleDist).1
    !! Fs.key "/home/ci" (path (output prodBrowserConfig)) = Some Dir ∧
  Fs.children (cleanBuild "/home/ci" prodBrowserConfig staleDist).1
    (Fs.key "/home/ci" (path (output prodBrowserConfig)))
  = if decide ("manifest.json" ∈
                 Fs.children staleDist (Fs.key "/home/ci" (path (output prodBrowserConfig))))
    then ["manifest.json"] else [].
Proof.
  apply (cleanBuild_leaves_only_manifest "/home/ci" prodBrowserConfig staleDist).
  - vm_compute. reflexivity.
  - vm_compute. reflexivity.
Defined.

(** X5: a pass that returned normally has nothing left to do: a second
    pass right after it returns normally and changes nothing. *)
Theorem cleanBuild_idempotent (cwd : string) (options : Config) (fs : FS) :
  (cleanBuild cwd options fs).2 = Normal tt →
  cleanBuild cwd options (cleanBuild cwd options fs).1
  = ((cleanBuild cwd options fs).1, Normal tt).
Proof.
  intros Hok.
  assert ((cleanBuild cwd options (cleanBuild cwd options fs).1).2 = Normal tt) as Hok2.
  { apply cleanBuild_normal_iff. split.
    - rewrite cleanBuild_normal_lookup by done.
      destruct (removes _ _ _ _); [done |]. by apply cleanBuild_normal_iff.
    - intros k' Hr. by rewrite removes_after_normal in Hr. }
  destruct (cleanBuild cwd options (cleanBuild cwd options fs).1) as [fs2 r] eqn:H2.
  simpl in Hok2. subst r. f_equal. apply map_eq. intros k'.
  change fs2 with (fs2, Normal tt).1. rewrite <- H2.
  rewrite cleanBuild_normal_lookup by by rewrite H2.
  by rewrite removes_after_normal.
Qed.

Lemma cleanBuild_idempotent_witness :
  cleanBuild "/home/ci" prodBrowserConfig (cleanBuild "/home/ci" prodBrowserConfig staleDist).1
  = ((cleanBuild "/home/ci" prodBrowserConfig staleDist).1, Normal tt).
Proof.
  apply (cleanBuild_idempotent "/home/ci" prodBrowserConfig staleDist).
  vm_compute. reflexivity.
Defined.

(** ** The two passes of a Production build *)

Lemma removes_after_other (cwd : string) (oa ob : Config) (fs : FS) (k' : list string) :
  Fs.key cwd (path (output oa)) ≠ Fs.key cwd (path (output ob)) →
  (∀ m, Fs.key cwd (path (output oa)) ++ [m] ≠ Fs.key cwd (path (output ob))) →
  (cleanBuild cwd oa fs).2 = Normal tt →
  removes cwd ob (cleanBuild cwd oa fs).1 k' = removes cwd ob fs k'.
Proof.
  intros Hne Hnest Hok.
  assert (∀ k, (k = Fs.key cwd (path (output ob)) ∨
                ∃ m, k = Fs.key cwd (path (output ob)) ++ [m]) →
               (cleanBuild cwd oa fs).1 !! k = fs !! k) as Hsame.
  { intros k Hk. rewrite cleanBuild_normal_lookup by done.
    destruct (removes cwd oa fs k) eqn:Hr; [| done].
    apply removes_true in Hr as (_ & n & -> & _).
    destruct Hk as [Hk|[m Hk]]; [by destruct (Hnest n) |].
    apply app_inj_tail in Hk as [Hk _]. by destruct Hne. }
  unfold removes. rewrite Hsame by by left.
  destruct (fs !! Fs.key cwd (path (output ob))) as [[|]|]; try done.
  destruct (Fs.childName _ k') as [n|] eqn:Hc; [| done].
  apply childName_Some in Hc as [-> _]. rewrite Hsame; [done |]. right. by exists n.
Qed.

Lemma cleanBuild_commute (cwd : string) (oa ob : Config) (fs : FS) :
  Fs.key cwd (path (output oa)) ≠ Fs.key cwd (path (output ob)) →
  (∀ m, Fs.key cwd (path (output oa)) ++ [m] ≠ Fs.key cwd (path (output ob))) →
  (∀ m, Fs.key cwd (path (output ob)) ++ [m] ≠ Fs.key cwd (path (output oa))) →
  (cleanBuild cwd oa fs).2 = Normal tt →
  (cleanBuild cwd ob fs).2 = Normal tt →
  (cleanBuild cwd ob (cleanBuild cwd oa fs).1).2 = Normal tt ∧
  (cleanBuild cwd ob (cleanBuild cwd oa fs).1).1
  = (cleanBuild cwd oa (cleanBuild cwd ob fs).1).1.
Proof.
  intros Hne Hab Hba Ha Hb.
  assert (∀ (o o' : Config),
            Fs.key cwd (path (output o)) ≠ Fs.key cwd (path (output o')) →
            (∀ m, Fs.key cwd (path (output o)) ++ [m] ≠ Fs.key cwd (path (output o'))) →
            (cleanBuild cwd o fs).2 = Normal tt →
            (cleanBuild cwd o' fs).2 = Normal tt →
            (cleanBuild cwd o' (cleanBuild cwd o fs).1).2 = Normal tt) as Hthen.
  { intros o o' H1 H2 Ho Ho'. apply cleanBuild_normal_iff in Ho' as [Hnf Hfiles].
    apply cleanBuild_normal_iff. split.
    - rewrite cleanBuild_normal_lookup by done.
      destruct (removes cwd o fs _); done.
    - intros k' Hr. rewrite removes_after_other in Hr by done.
      rewrite cleanBuild_normal_lookup by done.
      destruct (removes cwd o fs k') eqn:Hr'; [| by apply Hfiles].
      apply removes_true in Hr as (_ & n & -> & _).
      apply removes_true in Hr' as (_ & m & Heq & _).
      apply app_inj_tail in Heq as [Heq _]. by destruct H1. }
  split; [by apply Hthen |].
  apply map_eq. intros k'.
  rewrite !cleanBuild_normal_lookup by (done || by apply Hthen).
  rewrite !removes_after_other by done.
  by destruct (removes cwd oa fs k'), (removes cwd ob fs k').
Qed.

Lemma production_keys (p : Process) (b n : Config) :
  isDev p = false → module_exports p = Normal (Multi [b; n]) →
  Fs.key (cwd p) (path (output b)) = Path.resolveSegs (cwd p) [dirname p] ++ ["dist"] ∧
  Fs.key (cwd p) (path (output n)) = Path.resolveSegs (cwd p) [dirname p] ++ ["http"; "dist"].
Proof.
  intros Hd He. destruct (module_exports_prod p Hd) as (h & _ & He').
  rewrite He' in He. injection He as <- <-. simpl.
  split; by apply key_resolve_names; repeat constructor.
Qed.

(** X6: in a Production build neither pass reaches into the other's
    output directory: whatever its outcome, the pass of the browser
    compiler leaves the server output directory and everything below it as
    it was, and the pass of the server compiler does the same for the
    browser output directory. *)
Theorem production_cleanups_disjoint (p : Process) (b n : Config) (fs : FS) (r : list string) :
  isDev p = false → module_exports p = Normal (Multi [b; n]) →
  (cleanBuild (cwd p) b fs).1 !! (Fs.key (cwd p) (path (output n)) ++ r)
    = fs !! (Fs.key (cwd p) (path (output n)) ++ r) ∧
  (cleanBuild (cwd p) n fs).1 !! (Fs.key (cwd p) (path (output b)) ++ r)
    = fs !! (Fs.key (cwd p) (path (output b)) ++ r).
Proof.
  intros Hd He. destruct (production_keys p b n Hd He) as [Hb Hn].
  split; apply cleanBuild_frame; intros m _ _; rewrite Hb, Hn, <- !app_assoc;
    intros Heq%app_inv_head; simpl in Heq; discriminate Heq.
Qed.

Lemma production_cleanups_disjoint_witness :
  (cleanBuild (cwd prodProcess) prodBrowserConfig staleDist).1
    !! (Fs.key (cwd prodProcess) (path (output prodServerConfig)) ++ ["manifest.json"])
    = staleDist !! (Fs.key (cwd prodProcess) (path (output prodServerConfig)) ++ ["manifest.json"]) ∧
  (cleanBuild (cwd prodProcess) prodServerConfig staleDist).1
    !! (Fs.key (cwd prodProcess) (path (output prodBrowserConfig)) ++ ["manifest.json"])
    = staleDist !! (Fs.key (cwd prodProcess) (path (output prodBrowserConfig)) ++ ["manifest.json"]).
Proof.
  apply (production_cleanups_disjoint prodProcess prodBrowserConfig prodServerConfig
           staleDist ["manifest.json"]); reflexivity.
Defined.

(** X7: in a Production build the order of the two passes does not matter:
    when each of them returns normally on a file system, running one after
    the other returns normally too and gives the same file system in
    either order. *)
Theorem production_cleanups_commute (p : Process) (b n : Config) (fs : FS) :
  isDev p = false → module_exports p = Normal (Multi [b; n]) →
  (cleanBuild (cwd p) b fs).2 = Normal tt →
  (cleanBuild (cwd p) n fs).2 = Normal tt →
  (cleanBuild (cwd p) n (cleanBuild (cwd p) b fs).1).2 = Normal tt ∧
  (cleanBuild (cwd p) b (cleanBuild (cwd p) n fs).1).2 = Normal tt ∧
  (cleanBuild (cwd p) n (cleanBuild (cwd p) b fs).1).1
  = (cleanBuild (cwd p) b (cleanBuild (cwd p) n fs).1).1.
Proof.
  intros Hd He Hb Hn. destruct (production_keys p b n Hd He) as [Kb Kn].
  assert (Fs.key (cwd p) (path (output b)) ≠ Fs.key (cwd p) (path (output n))) as Hne.
  { rewrite Kb, Kn. intros Heq%app_inv_head. discriminate Heq. }
  assert (∀ m, Fs.key (cwd p) (path (output b)) ++ [m] ≠ Fs.key (cwd p) (path (output n)))
    as Hbn.
  { intros m. rewrite Kb, Kn, <- app_assoc. intros Heq%app_inv_head. discriminate Heq. }
  assert (∀ m, Fs.key (cwd p) (path (output n)) ++ [m] ≠ Fs.key (cwd p) (path (output b)))
    as Hnb.
  { intros m. rewrite Kb, Kn, <- app_assoc. intros Heq%app_inv_head. discriminate Heq. }
  destruct (cleanBuild_commute (cwd p) b n fs Hne Hbn Hnb Hb Hn) as [H1 H2].
  destruct (cleanBuild_commute (cwd p) n b fs (not_eq_sym Hne) Hnb Hbn Hn Hb) as [H3 _].
  done.
Qed.

Lemma production_cleanups_commute_witness :
  (cleanBuild (cwd prodProcess) prodServerConfig
     (cleanBuild (cwd prodProcess) prodBrowserConfig twoStaleDists).1).2 = Normal tt ∧
  (cleanBuild (cwd prodProcess) prodBrowserConfig
     (cleanBuild (cwd prodProcess) prodServerConfig twoStaleDists).1).2 = Normal tt ∧
  (cleanBuild (cwd prodProcess) prodServerConfig
     (cleanBuild (cwd prodProcess) prodBrowserConfig twoStaleDists).1).1
  = (cleanBuild (cwd prodProcess) prodBrowserConfig
       (cleanBuild (cwd prodProcess) prodServerConfig twoStaleDists).1).1.
Proof.
  apply (production_cleanups_commute prodProcess prodBrowserConfig prodServerConfig twoStaleDists).
  - reflexivity.
  - reflexivity.
  - vm_compute. reflexivity.
  - vm_compute. reflexivity.
Defined.

(** X8: in Production the file the manifest plugin of the browser
    configuration writes is the entry [manifest.json] of the server
    configuration's output directory, the one entry the server pass
    spares there; it is not an entry of the browser output directory. *)
Theorem manifest_in_server_output_directory (p : Process) (b n : Config) :
  isDev p = false → module_exports p = Normal (Multi [b; n]) →
  ∃ f, manifestFiles b = [(true, f)] ∧ manifestFiles n = [] ∧
       f = Path.resolve (cwd p) [path (output n); "manifest.json"] ∧
       Fs.key (cwd p) f = Fs.key (cwd p) (path (output n)) ++ ["manifest.json"] ∧
       ∀ m, Fs.key (cwd p) f ≠ Fs.key (cwd p) (path (output b)) ++ [m].
Proof.
  intros Hd He. destruct (production_keys p b n Hd He) as [Kb Kn].
  destruct (module_exports_prod p Hd) as (h & _ & He').
  rewrite He' in He. injection He as <- <-.
  eexists. split; [reflexivity |]. split; [reflexivity |].
  assert (Fs.key (cwd p) (Path.resolve (cwd p) [dirname p; "http"; "dist"; "manifest.json"])
          = Path.resolveSegs (cwd p) [dirname p] ++ ["http"; "dist"; "manifest.json"]) as Hk
    by by apply key_resolve_names; repeat constructor.
  split; [| split].
  - simpl. rewrite (resolve_resolve_names _ _ ["http"; "dist"] ["manifest.json"])
      by by repeat constructor.
    by apply resolve_names; repeat constructor.
  - rewrite Hk, Kn. by rewrite <- app_assoc.
  - intros m. rewrite Hk, Kb, <- app_assoc. intros Heq%app_inv_head. discriminate Heq.
Qed.

Lemma manifest_in_server_output_directory_witness :
  ∃ f, manifestFiles prodBrowserConfig = [(true, f)] ∧ manifestFiles prodServerConfig = [] ∧
       f = Path.resolve (cwd prodProcess) [path (output prodServerConfig); "manifest.json"] ∧
       Fs.key (cwd prodProcess) f
       = Fs.key (cwd prodProcess) (path (output prodServerConfig)) ++ ["manifest.json"] ∧
       ∀ m, Fs.key (cwd prodProcess) f
            ≠ Fs.key (cwd prodProcess) (path (output prodBrowserConfig)) ++ [m].
Proof.
  apply (manifest_in_server_output_directory prodProcess prodBrowserConfig prodServerConfig);
    reflexivity.
Defined.

(** ** The injected constants *)

Section QuoteFacts.

Lemma quoteChar_shape c :
  JSON.quoteChar c = String c EmptyString ∨
  ∃ rest, JSON.quoteChar c = String JSON.backslash rest.
Proof.
  unfold JSON.quoteChar.
  repeat (match goal with
          | |- context [decide ?P] => destruct (decide P)
          | |- context [if ?b then _ else _] => destruct b
          end; [right; by eexists |]).
  by left.
Qed.

Lemma str_length_app (a b : string) :
  String.length (a +:+ b) = String.length a + String.length b.
Proof. induction a as [|x a IH]; [done |]. rewrite str_app_cons. simpl. by rewrite IH. Qed.

Lemma str_app_inv_tail (a b c : string) : a +:+ c = b +:+ c → a = b.
Proof.
  revert b. induction a as [|x a IH]; intros [|y b] Heq; try done.
  - apply (f_equal String.length) in Heq.
    rewrite str_app_nil_l, str_length_app in Heq. simpl in Heq. lia.
  - apply (f_equal String.length) in Heq.
    rewrite str_app_nil_l, str_length_app in Heq. simpl in Heq. lia.
  - rewrite !str_app_cons in Heq. injection Heq as -> Heq. f_equal. by apply IH.
Qed.

(** A string without backslash that [JSON.stringify] writes unchanged
    between the quotes is the image of itself alone. *)
Lemma quoteChars_plain_inv (s t : string) :
  Str.includes (String JSON.backslash EmptyString) t = false →
  JSON.quoteChars s = t → s = t.
Proof.
  revert t. induction s as [|c r IH]; intros t Ht Heq; [done |].
  simpl in Heq. destruct (quoteChar_shape c) as [Hc|[rest Hc]]; rewrite Hc in Heq.
  - rewrite str_app_cons, str_app_nil_l in Heq. subst t. f_equal. apply IH; [| done].
    simpl in Ht. by apply orb_false_elim in Ht as [_ ?].
  - rewrite str_app_cons in Heq. subst t. simpl in Ht. discriminate Ht.
Qed.

Lemma quote_plain_inv (s t : string) :
  Str.includes (String JSON.backslash EmptyString) t = false →
  JSON.quoteChars t = t → JSON.quote s = JSON.quote t → s = t.
Proof.
  intros Ht Hq Heq. unfold JSON.quote in Heq. injection Heq as Heq.
  apply str_app_inv_tail in Heq. rewrite Hq in Heq. by apply quoteChars_plain_inv.
Qed.

Lemma allWhiteSpace_app (a b : string) :
  Str.allWhiteSpace (a +:+ b) = Str.allWhiteSpace a && Str.allWhiteSpace b.
Proof.
  induction a as [|x a IH]; [done |]. rewrite str_app_cons. simpl.
  by rewrite IH, andb_assoc.
Qed.

Lemma trimStart_blank (s : string) : Str.allWhiteSpace s = true → Str.trimStart s = EmptyString.
Proof.
  induction s as [|c r IH]; [done |]. simpl.
  intros [-> Hr]%andb_true_iff. by apply IH.
Qed.

Lemma trim_empty_iff (s : string) :
  Str.trim s = EmptyString ↔ Str.allWhiteSpace s = true.
Proof.
  split.
  - intros He. destruct (trim_spec s) as [(pre & post & Hs & Hpre & Hpost) _].
    rewrite He, str_app_nil_l in Hs. rewrite Hs, allWhiteSpace_app, Hpre, Hpost. done.
  - intros Hs. unfold Str.trim. by rewrite trimStart_blank.
Qed.

End QuoteFacts.

(** The exported configurations all carry the same [DefinePlugin]. *)
Lemma exported_defines (p : Process) (e : Exports) (c : Config) :
  module_exports p = Normal e → c ∈ configs e →
  gitRevisions c =
    [JSON.stringifyNullable
       (match git_rev_parse_HEAD p with
        | Normal out => Some (Str.trim out)
        | Throw _ => None
        end)] ∧
  definedNodeEnv c = [JSON.stringifyOptional (NODE_ENV p)] ∧
  mode c = (if isDev p then "development" else "production").
Proof.
  intros He Hc. pose proof (evalCommitHash_eq p) as Hh.
  destruct (isDev p) eqn:Hd.
  - destruct (module_exports_dev p Hd) as (h & Hh' & He').
    rewrite Hh in Hh'. injection Hh' as <-.
    rewrite He' in He. injection He as <-.
    apply list_elem_of_singleton in Hc as ->. simpl. by rewrite Hd.
  - destruct (module_exports_prod p Hd) as (h & Hh' & He').
    rewrite Hh in Hh'. injection Hh' as <-.
    rewrite He' in He. injection He as <-. simpl in Hc.
    apply elem_of_cons in Hc as [->|Hc]; [| apply list_elem_of_singleton in Hc as ->];
      simpl; by rewrite Hd.
Qed.

(** X9: the constant injected for [process.env.NODE_ENV] is [undefined]
    exactly when the variable is unset, although the mode is then
    [production]; and it is the mode string of the configuration, as a
    JSON string, exactly when the variable is [development] or
    [production]. *)
Theorem defined_NODE_ENV_and_mode (p : Process) (e : Exports) (c : Config) :
  module_exports p = Normal e → c ∈ configs e →
  (definedNodeEnv c = [None] ↔ NODE_ENV p = None) ∧
  (NODE_ENV p = None → mode c = "production") ∧
  (definedNodeEnv c = [Some (JSON.quote (mode c))] ↔
   NODE_ENV p = Some "development" ∨ NODE_ENV p = Some "production").
Proof.
  intros He Hc. destruct (exported_defines p e c He Hc) as (_ & -> & ->).
  unfold JSON.stringifyOptional.
  assert (isDev p = true ↔ NODE_ENV p = Some "development") as Hdev by apply isDev_iff.
  split; [| split].
  - destruct (NODE_ENV p); simpl; split; intros H; by try discriminate H.
  - intros Hn. destruct (isDev p); [| done].
    rewrite Hn in Hdev. discriminate (proj1 Hdev eq_refl).
  - destruct (NODE_ENV p) as [s|] eqn:Hs; simpl.
    + split.
      * intros Hq. destruct (isDev p) eqn:Hd.
        -- left. by apply Hdev.
        -- right. f_equal. apply quote_plain_inv; [done | done | congruence].
      * intros [[= ->]|[= ->]].
        -- by rewrite (proj2 Hdev eq_refl).
        -- destruct (isDev p) eqn:Hd; [| done]. discriminate (proj1 Hdev eq_refl).
    + split; [done | by intros [|]].
Qed.

Lemma defined_NODE_ENV_and_mode_witness :
  (definedNodeEnv prodBrowserConfig = [None] ↔ NODE_ENV prodProcess = None) ∧
  (NODE_ENV prodProcess = None → mode prodBrowserConfig = "production") ∧
  (definedNodeEnv prodBrowserConfig = [Some (JSON.quote (mode prodBrowserConfig))] ↔
   NODE_ENV prodProcess = Some "development" ∨ NODE_ENV prodProcess = Some "production").
Proof.
  apply (defined_NODE_ENV_and_mode prodProcess
           (Multi [prodBrowserConfig; prodServerConfig]) prodBrowserConfig).
  - reflexivity.
  - apply list_elem_of_here.
Defined.

(** X10: in every exported configuration the constant injected for the
    revision is the bare token [null] exactly when the [git] command
    failed; a revision that was read, even the text [null], is injected
    as a quoted JSON string. *)
Theorem git_revision_null_iff_failed (p : Process) (e : Exports) (c : Config) :
  module_exports p = Normal e → c ∈ configs e →
  (gitRevisions c = ["null"] ↔ ∃ err, git_rev_parse_HEAD p = Throw err) ∧
  (∀ out, git_rev_parse_HEAD p = Normal out →
          gitRevisions c = [JSON.quote (Str.trim out)] ∧
          Str.first (JSON.quote (Str.trim out)) = Some JSON.dquote).
Proof.
  intros He Hc. destruct (exported_defines p e c He Hc) as (-> & _ & _).
  destruct (git_rev_parse_HEAD p) as [out|err]; simpl.
  - split; [| by intros ? [= <-]]. split; [| by intros [? ?]].
    intros Hq. unfold JSON.quote in Hq. discriminate Hq.
  - split; [| done]. split; [by eexists | done].
Qed.

Lemma git_revision_null_iff_failed_witness :
  (gitRevisions prodServerConfig = ["null"] ↔
   ∃ err, git_rev_parse_HEAD prodProcess = Throw err) ∧
  (∀ out, git_rev_parse_HEAD prodProcess = Normal out →
          gitRevisions prodServerConfig = [JSON.quote (Str.trim out)] ∧
          Str.first (JSON.quote (Str.trim out)) = Some JSON.dquote).
Proof.
  apply (git_revision_null_iff_failed prodProcess
           (Multi [prodBrowserConfig; prodServerConfig]) prodServerConfig).
  - reflexivity.
  - apply list_elem_of_further, list_elem_of_here.
Defined.

(** X11: when [git] returns, the revision identifier is the empty string,
    not [null], exactly when the output is nothing but white space. *)
Theorem blank_git_output_gives_empty_revision (p : Process) (out : string) :
  git_rev_parse_HEAD p = Normal out →
  (evalCommitHash p = Normal (Some EmptyString) ↔ Str.allWhiteSpace out = true) ∧
  evalCommitHash p ≠ Normal None.
Proof.
  intros Hg. rewrite evalCommitHash_eq, Hg. split; [| done].
  rewrite <- trim_empty_iff. split; [by intros [= ->] | by intros ->].
Qed.

Lemma blank_git_output_gives_empty_revision_witness :
  (evalCommitHash blankGitProcess = Normal (Some EmptyString) ↔
   Str.allWhiteSpace (" " +:+ newline) = true) ∧
  evalCommitHash blankGitProcess ≠ Normal None.
Proof.
  apply (blank_git_output_gives_empty_revision blankGitProcess (" " +:+ newline)).
  reflexivity.
Defined.

(** ** The rest of the configuration *)

(** X12: in Production the script of the server configuration is always
    named [App.js], with [commonjs2] as library target, while its style
    patterns are the content-hash ones of the browser configuration; mode,
    public path and dev-server settings are those of the browser
    configuration. *)
Theorem server_descriptor_patterns (p : Process) (b n : Config) :
  isDev p = false → module_exports p = Normal (Multi [b; n]) →
  filenamePatterns n = ["App.js"; "[name].chk.js"; "[contenthash].css"; "[contenthash].css"] ∧
  libraryTarget (output n) = Some "commonjs2" ∧ libraryTarget (output b) = None ∧
  mode n = mode b ∧ publicPath (output n) = publicPath (output b) ∧
  devServer n = devServer b.
Proof.
  intros Hd He. destruct (module_exports_prod p Hd) as (h & _ & He').
  rewrite He' in He. injection He as <- <-.
  unfold filenamePatterns. simpl. by rewrite Hd.
Qed.

Lemma server_descriptor_patterns_witness :
  filenamePatterns prodServerConfig
  = ["App.js"; "[name].chk.js"; "[contenthash].css"; "[contenthash].css"] ∧
  libraryTarget (output prodServerConfig) = Some "commonjs2" ∧
  libraryTarget (output prodBrowserConfig) = None ∧
  mode prodServerConfig = mode prodBrowserConfig ∧
  publicPath (output prodServerConfig) = publicPath (output prodBrowserConfig) ∧
  devServer prodServerConfig = devServer prodBrowserConfig.
Proof.
  apply (server_descriptor_patterns prodProcess prodBrowserConfig prodServerConfig);
    reflexivity.
Defined.

(** X13: the two halves of fast refresh go together: the prefresh babel
    plugin is in the loader's plugin list exactly when the prefresh
    webpack plugin is in the browser configuration, that is, exactly in
    Development; [filter(Boolean)] leaves three babel plugins in
    Production and four in Development. *)
Theorem prefresh_only_in_development (p : Process) :
  ∃ b, browserConfig p = Some b ∧
    ("@prefresh/babel-plugin" ∈ babelPlugins p ↔ PreactRefreshWebpackPlugin ∈ plugins b) ∧
    (PreactRefreshWebpackPlugin ∈ plugins b ↔ isDev p = true) ∧
    length (babelPlugins p) = if isDev p then 4 else 3.
Proof.
  unfold browserConfig, babelPlugins. destruct (isDev p) eqn:Hd.
  - destruct (module_exports_dev p Hd) as (h & _ & ->). eexists. split; [done |].
    simpl. split; [| split; [| done]].
    + split; intros _; [do 4 right; by left | do 3 right; by left].
    + split; [done |]. intros _. do 4 right. by left.
  - destruct (module_exports_prod p Hd) as (h & _ & ->). eexists. split; [done |].
    simpl. split; [| split; [| done]].
    + split; intros Hin; exfalso; repeat (apply elem_of_cons in Hin as [Hin|Hin];
        [discriminate Hin |]); by apply elem_of_nil in Hin.
    + split; [| done]. intros Hin; exfalso;
        repeat (apply elem_of_cons in Hin as [Hin|Hin]; [discriminate Hin |]);
        by apply elem_of_nil in Hin.
Qed.

(** ** [join], [resolve] and the working directory *)

Section JoinFacts.

Lemma str_last_app (a b : string) :
  b ≠ EmptyString → Str.last (a +:+ b) = Str.last b.
Proof.
  intros Hb. induction a as [|x a IH]; [done |].
  rewrite str_app_cons. simpl. rewrite IH.
  destruct (a +:+ b) eqn:Hab; [| done].
  destruct a; [by rewrite str_app_nil_l in Hab | discriminate Hab].
Qed.

Lemma noslash_last (n : string) :
  Str.includes "/" n = false → Str.last n ≠ Some Path.slash.
Proof.
  induction n as [|c r IH]; [done |].
  intros [Hc Hr]%includes_slash_cons. simpl. destruct r; [by intros [= ->] | by apply IH].
Qed.

Lemma joinSegs_snoc_nonempty (xs : list string) (n : string) :
  n ≠ EmptyString → Path.joinSegs (xs ++ [n]) ≠ EmptyString.
Proof.
  intros Hn. induction xs as [|x xs IH]; [done |].
  simpl. destruct (xs ++ [n]) eqn:Hx; [by destruct xs |].
  destruct x; [| done]. rewrite str_app_nil_l. done.
Qed.

Lemma absolute_nonempty (d : string) : Path.isAbsolute d = true → d ≠ EmptyString.
Proof. by intros H ->. Qed.

Lemma absolute_app (d s : string) :
  Path.isAbsolute d = true → Path.isAbsolute (d +:+ s) = true.
Proof. destruct d as [|c d]; [done |]. rewrite str_app_cons. done. Qed.

Lemma resolveLoop_absolute (l : list string) (d r : string) :
  Path.isAbsolute d = true →
  (Path.resolveLoop (l ++ [d]) r).2 = true.
Proof.
  intros Hd. revert r. induction l as [|x l IH]; intros r; simpl.
  - rewrite decide_False by by apply absolute_nonempty. by rewrite Hd.
  - destruct (decide (x = EmptyString)); [apply IH |].
    destruct (Path.isAbsolute x); [done | apply IH].
Qed.

(** With an absolute first argument [path.resolve] does not look at the
    working directory. *)
Lemma resolve_absolute_cwd (cwd cwd' d : string) (rest : list string) :
  Path.isAbsolute d = true →
  Path.resolve cwd (d :: rest) = Path.resolve cwd' (d :: rest).
Proof.
  intros Hd. unfold Path.resolve, Path.resolveSegs. simpl rev.
  pose proof (resolveLoop_absolute (rev rest) d EmptyString Hd) as Ha.
  destruct (Path.resolveLoop (rev rest ++ [d]) EmptyString) as [s a].
  simpl in Ha. by subst a.
Qed.

Lemma resolveSegs_absolute (cwd d : string) :
  Path.isAbsolute d = true →
  Path.resolveSegs cwd [d] = Path.normalize (Path.split d).
Proof.
  intros Hd. unfold Path.resolveSegs. simpl.
  rewrite decide_False by by apply absolute_nonempty. rewrite Hd.
  rewrite split_app_slash. unfold Path.normalize. rewrite fold_left_app. simpl.
  by rewrite normStep_empty.
Qed.

(** [join(d, n) = resolve(d, n)] for an absolute [d] and a plain name. *)
Lemma join_absolute_name (cwd d n : string) :
  Path.isAbsolute d = true → Path.validName n = true →
  PathJoin.join [d; n] = Path.resolve cwd [d; n].
Proof.
  intros Hd Hn. pose proof Hn as (Hne & _ & _ & Hns)%validName_inv.
  rewrite (resolve_names cwd d [n]) by by repeat constructor.
  rewrite resolveSegs_absolute by done.
  unfold PathJoin.join. simpl.
  rewrite !decide_False by (done || by apply absolute_nonempty).
  unfold PathJoin.normalize.
  rewrite decide_False by (apply absolute_nonempty; by apply absolute_app).
  rewrite absolute_app by done. simpl negb.
  assert (PathJoin.endsWithSlash (d +:+ "/" +:+ n) = false) as ->.
  { unfold PathJoin.endsWithSlash.
    rewrite <- str_app_assoc, str_last_app by done.
    pose proof (noslash_last n Hns) as Hl. destruct (Str.last n) as [c|]; [| done].
    apply bool_decide_eq_false_2. by intros ->. }
  unfold PathJoin.normalizeString.
  rewrite split_app_slash, (split_noslash n) by done.
  rewrite fold_left_app. simpl. rewrite normStep_valid by done. simpl.
  rewrite decide_False by by apply joinSegs_snoc_nonempty.
  done.
Qed.

End JoinFacts.

(** X14: when [__dirname] is absolute, [SRC], built with [join], is the
    same path as [src], built with [resolve], and each of the four aliases
    points at an entry of that directory: [components], [styles], [assets]
    and [constants.js]. *)
Theorem alias_targets_in_src (p : Process) :
  Path.isAbsolute (dirname p) = true →
  SRC p = src p ∧
  alias p =
    [ ("@components", Path.resolve (cwd p) [src p; "components"]);
      ("@styles", Path.resolve (cwd p) [src p; "styles"]);
      ("@assets", Path.resolve (cwd p) [src p; "assets"]);
      ("@constants", Path.resolve (cwd p) [src p; "constants.js"]) ].
Proof.
  intros Hd.
  assert (SRC p = src p) as Hsrc by by apply join_absolute_name.
  split; [done |]. unfold alias. rewrite Hsrc.
  rewrite (join_absolute_name (cwd p)) by done.
  unfold src.
  rewrite !(resolve_resolve_names _ _ ["src"]) by by repeat constructor.
  by rewrite !resolve_names by by repeat constructor.
Qed.

Lemma alias_targets_in_src_witness :
  SRC prodProcess = src prodProcess ∧
  alias prodProcess =
    [ ("@components", Path.resolve (cwd prodProcess) [src prodProcess; "components"]);
      ("@styles", Path.resolve (cwd prodProcess) [src prodProcess; "styles"]);
      ("@assets", Path.resolve (cwd prodProcess) [src prodProcess; "assets"]);
      ("@constants", Path.resolve (cwd prodProcess) [src prodProcess; "constants.js"]) ].
Proof. apply (alias_targets_in_src prodProcess). reflexivity. Defined.

(** X15: when [__dirname] is absolute, the paths in the exported value
    (entry points, output directories, manifest file) and the alias
    targets do not depend on the directory the build is started from, nor
    on [PORT] or on the outcome of [git]: two processes with the same
    [__dirname] and the same mode export the same paths. *)
Theorem config_paths_independent_of_cwd (p p' : Process) :
  Path.isAbsolute (dirname p) = true →
  dirname p' = dirname p → isDev p' = isDev p →
  ∃ e e', module_exports p = Normal e ∧ module_exports p' = Normal e' ∧
          configPaths <$> configs e' = configPaths <$> configs e ∧
          alias p' = alias p.
Proof.
  intros Hd Hdir Hdev.
  assert (∀ rest, Path.resolve (cwd p') (dirname p :: rest)
                  = Path.resolve (cwd p) (dirname p :: rest)) as Hres
    by (intros; by apply resolve_absolute_cwd).
  assert (src p' = src p) as Hsrc by (unfold src; by rewrite Hdir, Hres).
  assert (∀ rest, Path.resolve (cwd p') (src p :: rest)
                  = Path.resolve (cwd p) (src p :: rest)) as Hres'
    by (intros; by apply resolve_absolute_cwd).
  assert (alias p' = alias p) as Halias.
  { unfold alias, SRC. by rewrite Hdir, !Hres. }
  destruct (isDev p) eqn:Hp.
  - destruct (module_exports_dev p Hp) as (h & _ & He).
    destruct (module_exports_dev p' Hdev) as (h' & _ & He').
    do 2 eexists. split; [exact He |]. split; [exact He' |]. split; [| done].
    unfold configPaths, manifestFiles. simpl. by rewrite Hsrc, Hdir, !Hres, Hres'.
  - destruct (module_exports_prod p Hp) as (h & _ & He).
    destruct (module_exports_prod p' Hdev) as (h' & _ & He').
    do 2 eexists. split; [exact He |]. split; [exact He' |]. split; [| done].
    unfold configPaths, manifestFiles. simpl. by rewrite Hsrc, Hdir, !Hres, !Hres'.
Qed.

(** [prodProcessElsewhere] differs from [prodProcess] in its working
    directory, in [PORT] and in what [git] returns. *)
Lemma config_paths_independent_of_cwd_witness :
  ∃ e e', module_exports prodProcess = Normal e ∧
          module_exports prodProcessElsewhere = Normal e' ∧
          configPaths <$> configs e' = configPaths <$> configs e ∧
          alias prodProcessElsewhere = alias prodProcess.
Proof.
  apply (config_paths_independent_of_cwd prodProcess prodProcessElsewhere); reflexivity.
Defined.
